(** * Keystroke-dynamics web application (app.py): a shallow embedding

    The Flask module [app.py] is embedded as pure functions over an explicit
    state (the data directory and the cached verifier) and an explicit
    environment (the collaborators that live outside the module: the clock,
    pandas, the feature extractor, the verifier class).  JSON values and Python
    dictionaries are finite maps keyed by strings; HTTP answers are a JSON body
    together with a status code.  Calls to [logging] have no effect on an
    answer and are left out; a loaded verifier object counts as true. *)

From Stdlib Require Import ZArith QArith String Ascii List Lia.
From stdpp Require Import base option gmap strings list fin_maps pretty.

#[local] Set Warnings "-register-all".
#[local] Open Scope string_scope.
#[local] Open Scope Z_scope.

(** ** Python built-ins used by the module *)

Module Py.

(** [s.startswith(p)] *)
Definition startswith (p s : string) : bool := String.prefix p s.

(** [s.endswith(p)] *)
Definition endswith (p s : string) : bool :=
  String.prefix (String.rev p) (String.rev s).

(** [p in s] for two strings: [p] occurs somewhere in [s]. *)
Fixpoint contains (p s : string) : bool :=
  String.prefix p s ||
  match s with
  | EmptyString => false
  | String _ s' => contains p s'
  end.

(** [s.replace(old, '')] for a non-empty [old]: the occurrences of [old] are
    found from left to right, without overlap, and dropped.  [skip] counts
    the characters of the current occurrence that are still to be dropped. *)
Fixpoint remove_go (old : string) (skip : nat) (s : string) : string :=
  match s with
  | EmptyString => EmptyString
  | String c s' =>
      match skip with
      | S k => remove_go old k s'
      | O =>
          if String.prefix old s
          then remove_go old (Nat.pred (String.length old)) s'
          else String c (remove_go old O s')
      end
  end.

Definition remove (old s : string) : string := remove_go old O s.

(** The characters [int()] skips around a numeral (C's [isspace]). *)
Definition is_space (c : ascii) : bool :=
  match c with
  | " " | "009" | "010" | "011" | "012" | "013" => true
  | _ => false
  end%char.

Definition digit_val (c : ascii) : option Z :=
  let code := Z.of_N (N_of_ascii c) in
  if (48 <=? code) && (code <=? 57) then Some (code - 48) else None.

Fixpoint all_space (s : string) : bool :=
  match s with
  | EmptyString => true
  | String c s' => is_space c && all_space s'
  end.

Fixpoint lstrip (s : string) : string :=
  match s with
  | EmptyString => EmptyString
  | String c s' => if is_space c then lstrip s' else s
  end.

(** The numeral after its first digit: digits, each optionally preceded by
    one underscore, then only white space.  [acc] is the value read so far. *)
Fixpoint int_digits (acc : Z) (s : string) : option Z :=
  match s with
  | EmptyString => Some acc
  | String c s' =>
      match digit_val c with
      | Some d => int_digits (10 * acc + d) s'
      | None =>
          if Ascii.eqb c "_" then
            match s' with
            | EmptyString => None
            | String c' s'' =>
                match digit_val c' with
                | Some d => int_digits (10 * acc + d) s''
                | None => None
                end
            end
          else if all_space s then Some acc else None
      end
  end.

(** An unsigned numeral: at least one digit, no leading underscore. *)
Definition int_unsigned (s : string) : option Z :=
  match s with
  | EmptyString => None
  | String c s' =>
      match digit_val c with
      | Some d => int_digits d s'
      | None => None
      end
  end.

(** [int(s)] in base ten on a string of ASCII characters; [None] stands for
    [ValueError].  File names are at most a few hundred characters long, so
    the interpreter's limit on the number of digits is never reached. *)
Definition int (s : string) : option Z :=
  match lstrip s with
  | String "-" s' => Z.opp <$> int_unsigned s'
  | String "+" s' => int_unsigned s'
  | s' => int_unsigned s'
  end.

(** [str(n)], also the text an f-string puts for an integer. *)
Definition str (n : Z) : string := pretty n.

(** [max(l)] of a non-empty list of integers, given as head and tail. *)
Definition max (n : Z) (l : list Z) : Z := foldr Z.max n l.

(** [os.path.join(a, b)] for a relative [b]. *)
Definition path_join (a b : string) : string :=
  if String.eqb a "" || endswith "/" a then a +:+ b else a +:+ "/" +:+ b.

End Py.

(** ** Configuration

    [config.py] is not part of the module; the attributes of [Config] that the
    module and its specification refer to are taken as parameters. *)

Record Config := {
  MIN_KEYSTROKES : Z;
  CONFIDENCE_THRESHOLD : Q;
  AGREEMENT_THRESHOLD : Q;
  DATA_DIR : string;
}.

(** ** The data directory *)

(** The state of [Config.DATA_DIR]: [None] when the directory does not exist,
    otherwise the names [os.listdir] returns. *)
Definition data_dir := option (list string).

(** The names kept by the comprehension of [get_next_sample_number]. *)
Definition is_sample_file (f : string) : bool :=
  Py.startswith "sample" f && Py.endswith ".csv" f.

(** [int(filename.replace('sample', '').replace('.csv', ''))] *)
Definition sample_number_of (f : string) : option Z :=
  Py.int (Py.remove ".csv" (Py.remove "sample" f)).

(** The list [numbers] built by the loop: names that [int] rejects are skipped. *)
Definition sample_numbers (existing_files : list string) : list Z :=
  omap sample_number_of existing_files.

Definition get_next_sample_number (d : data_dir) : Z * data_dir :=
  let d' := match d with None => Some [] | Some _ => d end in
  let existing_files := filter (fun f => is_sample_file f = true) (default [] d') in
  match existing_files with
  | [] => (1, d')
  | _ =>
      match sample_numbers existing_files with
      | [] => (1, d')
      | n :: ns => (Py.max n ns + 1, d')
      end
  end.

(** ** JSON values

    What [request.get_json()] returns and what [jsonify] is given: Python's
    [None], [bool], [int], [float], [str], [list] and [dict] with string keys.
    A [float] is carried as a rational; the module never computes with one. *)

Inductive json : Type :=
| JNull
| JBool (b : bool)
| JInt (z : Z)
| JFloat (q : Q)
| JStr (s : string)
| JArr (l : list json)
| JObj (m : gmap string json).

(** A dictionary display [{k1: v1, ...}] with distinct keys. *)
Definition dict (l : list (string * json)) : json := JObj (list_to_map l).

(** [x if x is not None else null] for an optional string. *)
Definition opt_str (o : option string) : json :=
  match o with Some s => JStr s | None => JNull end.

(** Subscription [j[k]] of a value known to be a dictionary, as a lookup. *)
Definition field (k : string) (j : json) : option json :=
  match j with JObj m => m !! k | _ => None end.

(** The keys of a dictionary. *)
Definition keys (j : json) : gset string :=
  match j with JObj m => dom m | _ => ∅ end.

(** ** Exceptions *)

(** The [TypeError]s the interpreter itself raises in [api_verify]. *)
Inductive type_error :=
| NotIterable (v : json)      (* ['keystrokes' in v] *)
| BadIndex (v : json)         (* [v['keystrokes']] *)
| NoLen (v : json).           (* [len(v)] *)

Inductive exn :=
| TypeError (e : type_error)
| Raised (msg : string).      (* raised by a collaborator; [msg] is [str(e)] *)

(** Truth value of a JSON value ([not data]). *)
Definition truthy (j : json) : bool :=
  match j with
  | JNull => false
  | JBool b => b
  | JInt z => negb (z =? 0)
  | JFloat q => negb (Qnum q =? 0)
  | JStr s => negb (String.eqb s "")
  | JArr l => match l with [] => false | _ => true end
  | JObj m => negb (bool_decide (m = ∅))
  end.

Definition is_str (s : string) (j : json) : bool :=
  match j with JStr s' => String.eqb s s' | _ => false end.

(** [k in j] for a string [k]. *)
Definition py_in (k : string) (j : json) : exn + bool :=
  match j with
  | JObj m => inr (bool_decide (is_Some (m !! k)))
  | JStr s => inr (Py.contains k s)
  | JArr l => inr (existsb (is_str k) l)
  | _ => inl (TypeError (NotIterable j))
  end.

(** [j[k]] for a string [k]; a missing key raises [KeyError(k)], whose text
    is [k] between quotes. *)
Definition py_getitem (k : string) (j : json) : exn + json :=
  match j with
  | JObj m =>
      match m !! k with
      | Some v => inr v
      | None => inl (Raised ("'" +:+ k +:+ "'"))
      end
  | _ => inl (TypeError (BadIndex j))
  end.

(** [len(j)]; a string is taken to hold ASCII characters, one per element,
    so that its length is the number of its characters. *)
Definition py_len (j : json) : exn + Z :=
  match j with
  | JStr s => inr (Z.of_nat (String.length s))
  | JArr l => inr (Z.of_nat (length l))
  | JObj m => inr (Z.of_nat (size m))
  | _ => inl (TypeError (NoLen j))
  end.

(** ** Environment and state *)

(** [OptimizedKeystrokeVerifier] (module [verify_optimized], not part of
    [app.py]): [verify_keystroke_file path] reads the file at [path], whose
    content is the second argument, and returns a result or raises; it is
    taken to create and remove no file. *)
Record Verifier := {
  verify_keystroke_file : string -> json -> exn + json;
}.

(** A [FileStorage] of [request.files]: its name and its rows. *)
Record Upload := {
  upload_filename : string;
  upload_content : json;
}.

(** Everything the handlers obtain from outside the module during one request. *)
Record Env := {
  (** [datetime.now().isoformat()] *)
  now_isoformat : string;
  (** [datetime.now().timestamp()], formatted *)
  now_timestamp : string;
  (** [str(e)] of a [TypeError] raised by the interpreter *)
  type_error_str : type_error -> string;
  (** [OptimizedKeystrokeVerifier()]; [None] when import or constructor raise *)
  load_verifier : option Verifier;
  (** [pd.DataFrame(keystrokes).to_csv(filepath, index=False)] succeeds *)
  to_csv : json -> string -> bool;
  (** [feature_extractor.extract_comprehensive_features(pd.DataFrame(keystrokes))] *)
  extract_comprehensive_features : json -> exn + gmap string json;
  (** [file.save(temp_path)]: the exception it raises, if any *)
  save_upload : Upload -> string -> option exn;
  (** [to_csv] that raises has created the file at this path before it
      raises (the write fails after the file is opened), or has not (the
      frame cannot be built, the file cannot be opened) *)
  to_csv_leaves_file : json -> string -> bool;
  (** the same for [file.save] that raises *)
  save_upload_leaves_file : Upload -> string -> bool;
  (** the relative directory ['data'], in which [api_analyze] puts its
      temporary file, is [Config.DATA_DIR] *)
  uploads_in_data_dir : bool;
}.

(** The module's mutable state: the data directory on disk and the global
    [verifier]. *)
Record State := {
  dir : data_dir;
  verifier : option Verifier;
}.

Definition str_exn (env : Env) (e : exn) : string :=
  match e with
  | TypeError t => type_error_str env t
  | Raised msg => msg
  end.

(** ** HTTP answers *)

Record Response := {
  body : json;
  status_code : Z;
}.

(** [jsonify({'status': 'error', 'message': msg}), code] *)
Definition error_response (msg : string) (code : Z) : Response :=
  {| body := dict [("status", JStr "error"); ("message", JStr msg)];
     status_code := code |}.

(** ** The handlers *)

Definition get_verifier (env : Env) (st : State) : option Verifier * State :=
  match verifier st with
  | Some v => (Some v, st)
  | None =>
      (load_verifier env, {| dir := dir st; verifier := load_verifier env |})
  end.

(** [f'sample{sample_number}.csv'] *)
Definition sample_filename (sample_number : Z) : string :=
  "sample" +:+ Py.str sample_number +:+ ".csv".

(** The directory after [to_csv] has written a file named [f] into it. *)
Definition dir_write (f : string) (d : data_dir) : data_dir :=
  let l := default [] d in
  if bool_decide (f ∈ l) then Some l else Some (l ++ [f])%list.

(** Returns [(filepath, sample_number)], or [None] for [(None, None)] when the
    body raised; a write that raises may have created the file already. *)
Definition save_keystroke_data (cfg : Config) (env : Env) (st : State)
    (keystrokes : json) : option (string * Z) * State :=
  let '(sample_number, d) := get_next_sample_number (dir st) in
  let filename := sample_filename sample_number in
  let filepath := Py.path_join (DATA_DIR cfg) filename in
  if to_csv env keystrokes filepath
  then (Some (filepath, sample_number),
        {| dir := dir_write filename d; verifier := verifier st |})
  else (None,
        {| dir := if to_csv_leaves_file env keystrokes filepath
                  then dir_write filename d else d;
           verifier := verifier st |}).

(** [f'sample{sample_number}.csv' if sample_number else ...]: the condition
    is false for [None] and for [0]. *)
Definition sample_label (sample_number : option Z) : option string :=
  match sample_number with
  | Some n => if n =? 0 then None else Some (sample_filename n)
  | None => None
  end.

(** The placeholder decision of [api_verify]. *)
Definition authentication_result : json :=
  dict [("is_authentic", JBool true);
        ("confidence", JFloat 85);
        ("ensemble_decision", JStr "Legitimate");
        ("model_agreement", JFloat 95);
        ("final_decision", JStr "AUTHENTICATED")].

(** [features.get(k, 0)] *)
Definition features_get (features : gmap string json) (k : string) : json :=
  default (JInt 0) (features !! k).

Definition typing_statistics (features : gmap string json) : json :=
  dict [("dwell_time_mean", features_get features "dwell_mean");
        ("dwell_time_std", features_get features "dwell_std");
        ("flight_time_mean", features_get features "flight_mean");
        ("flight_time_std", features_get features "flight_std");
        ("total_time", features_get features "total_time");
        ("typing_speed", features_get features "typing_speed");
        ("dwell_flight_ratio", features_get features "dwell_flight_ratio")].

Definition verify_result (env : Env) (sample_number : option Z)
    (keystroke_count : Z) (features : gmap string json) : json :=
  dict [("file_info",
         dict [("filename",
                JStr (default "realtime_verification" (sample_label sample_number)));
               ("saved_as", opt_str (sample_label sample_number));
               ("keystroke_count", JInt keystroke_count);
               ("verification_time", JStr (now_isoformat env))]);
        ("authentication_result", authentication_result);
        ("typing_statistics", typing_statistics features)].

Definition verify_success (env : Env) (sample_number : option Z)
    (keystroke_count : Z) (features : gmap string json) : Response :=
  {| body := dict [("status", JStr "success");
                   ("result", verify_result env sample_number keystroke_count features);
                   ("saved_file", opt_str (sample_label sample_number))];
     status_code := 200 |}.

(** The [except Exception] clause of [api_verify]. *)
Definition verify_failed (env : Env) (e : exn) : Response :=
  error_response ("Verification failed: " +:+ str_exn env e) 500.

(** [POST /api/verify]; [request] is the outcome of [request.get_json()]. *)
Definition api_verify (cfg : Config) (env : Env) (st : State)
    (request : exn + json) : Response * State :=
  match request with
  | inl e => (verify_failed env e, st)
  | inr data =>
      if negb (truthy data) then
        (error_response "No keystroke data provided" 400, st)
      else
        match py_in "keystrokes" data with
        | inl e => (verify_failed env e, st)
        | inr false => (error_response "No keystroke data provided" 400, st)
        | inr true =>
            match py_getitem "keystrokes" data with
            | inl e => (verify_failed env e, st)
            | inr keystrokes =>
                match py_len keystrokes with
                | inl e => (verify_failed env e, st)
                | inr n =>
                    if n <? MIN_KEYSTROKES cfg then
                      (error_response
                         ("Insufficient keystrokes. Minimum required: "
                            +:+ Py.str (MIN_KEYSTROKES cfg)) 400, st)
                    else
                      let '(saved, st1) := save_keystroke_data cfg env st keystrokes in
                      let sample_number := snd <$> saved in
                      match extract_comprehensive_features env keystrokes with
                      | inl e => (verify_failed env e, st1)
                      | inr features =>
                          let '(verifier_instance, st2) := get_verifier env st1 in
                          match verifier_instance with
                          | None =>
                              (error_response "Verification system not available" 503, st2)
                          | Some _ =>
                              (verify_success env sample_number n features, st2)
                          end
                      end
                end
            end
        end
  end.

(** The [except Exception] clause of [api_analyze]. *)
Definition analyze_failed (env : Env) (e : exn) : Response :=
  error_response ("Analysis failed: " +:+ str_exn env e) 500.

(** The directory after [os.remove] has removed the file named [f]. *)
Definition dir_remove (f : string) (d : data_dir) : data_dir :=
  filter (fun g => g <> f) <$> d.

(** The state once the temporary file of [api_analyze] is on disk, and once
    it is removed again: the file shows in the data directory when ['data']
    is that directory. *)
Definition upload_written (env : Env) (temp_name : string) (st : State) : State :=
  if uploads_in_data_dir env
  then {| dir := dir_write temp_name (dir st); verifier := verifier st |}
  else st.

Definition upload_removed (env : Env) (temp_name : string) (st : State) : State :=
  if uploads_in_data_dir env
  then {| dir := dir_remove temp_name (dir st); verifier := verifier st |}
  else st.

(** [file.save(temp_path)]: the exception and the state when it raises, the
    state when it returns.  In a directory that does not exist it raises
    [FileNotFoundError]. *)
Definition file_save (env : Env) (st : State) (file : Upload)
    (temp_name temp_path : string) : exn * State + State :=
  if uploads_in_data_dir env && negb (bool_decide (is_Some (dir st))) then
    inl (Raised ("[Errno 2] No such file or directory: '" +:+ temp_path +:+ "'"),
         st)
  else
    match save_upload env file temp_path with
    | Some e =>
        inl (e, if save_upload_leaves_file env file temp_path
                then upload_written env temp_name st else st)
    | None => inr (upload_written env temp_name st)
    end.

(** [POST /api/analyze]; [files] is [request.files].  The temporary file is
    removed only after [verify_keystroke_file] has returned: it stays on the
    503 path and when the verifier raises. *)
Definition api_analyze (env : Env) (st : State)
    (files : gmap string Upload) : Response * State :=
  match files !! "file" with
  | None => (error_response "No file provided" 400, st)
  | Some file =>
      if String.eqb (upload_filename file) "" then
        (error_response "No file selected" 400, st)
      else if negb (Py.endswith ".csv" (upload_filename file)) then
        (error_response "Only CSV files are supported" 400, st)
      else
        let temp_name := "temp_upload_" +:+ now_timestamp env +:+ ".csv" in
        let temp_path := Py.path_join "data" temp_name in
        match file_save env st file temp_name temp_path with
        | inl (e, st0) => (analyze_failed env e, st0)
        | inr st0 =>
            let '(verifier_instance, st1) := get_verifier env st0 in
            match verifier_instance with
            | None => (error_response "Verification system not available" 503, st1)
            | Some v =>
                match verify_keystroke_file v temp_path (upload_content file) with
                | inl e => (analyze_failed env e, st1)
                | inr result =>
                    let st2 := upload_removed env temp_name st1 in
                    if truthy result then
                      ({| body := dict [("status", JStr "success"); ("result", result)];
                          status_code := 200 |}, st2)
                    else (error_response "Verification failed" 500, st2)
                end
            end
        end
  end.

(** [GET /api/status] *)
Definition api_status (env : Env) (st : State) : Response * State :=
  let '(verifier_instance, st1) := get_verifier env st in
  ({| body := dict [("status", JStr "online");
                    ("model_loaded",
                     JBool (match verifier_instance with
                            | Some _ => true
                            | None => false
                            end));
                    ("timestamp", JStr (now_isoformat env));
                    ("version", JStr "2.0.0")];
      status_code := 200 |}, st1).

(** [GET /api/statistics].  [os.listdir] comes first and raises
    [FileNotFoundError] when the data directory is missing; nothing catches
    it, and [None] stands for the exception leaving the view. *)
Definition api_statistics (env : Env) (st : State) : option (Response * State) :=
  match dir st with
  | None => None
  | Some names =>
      let data_files := filter (fun f => is_sample_file f = true) names in
      let '(verifier_instance, st1) := get_verifier env st in
      let '(next_sample_number, d) := get_next_sample_number (dir st1) in
      Some ({| body := dict [("data_files_count", JInt (Z.of_nat (length data_files)));
                             ("model_status",
                              JStr (match verifier_instance with
                                    | Some _ => "loaded"
                                    | None => "not_loaded"
                                    end));
                             ("system_uptime", JStr (now_isoformat env));
                             ("next_sample_number", JInt next_sample_number)];
               status_code := 200 |},
            {| dir := d; verifier := verifier st1 |})
  end.

(** ** Accounts and sessions *)

(** A document of the [users] collection, as [register] inserts it; [user_oid]
    is [str(user['_id'])]. *)
Record User := {
  user_oid : string;
  user_name : option string;
  user_email : option string;
  user_password : string;
  user_created_at : string;
}.

(** What the account views obtain from outside the module: werkzeug's two
    password functions ([None] when they raise, as they may on a missing
    password), the clock and the identifier MongoDB gives a new document. *)
Record AuthEnv := {
  generate_password_hash : option string -> option string;
  check_password_hash : string -> option string -> option bool;
  utcnow : string;
  new_object_id : string;
}.

(** What a view returns: [redirect(url_for(endpoint))],
    [render_template(template, **context)], or an exception nothing catches. *)
Inductive View :=
| Redirect (endpoint : string)
| Render (template : string) (context : gmap string json)
| Unhandled.

(** [mongo.db.users.find_one({'email': email})]: the first document with that
    email. *)
Definition find_one (email : option string) (users : list User) : option User :=
  head (filter (fun u => user_email u = email) users).

(** [GET /]; [session] is Flask's session dictionary. *)
Definition index (session : gmap string json) : View :=
  match session !! "user_id" with
  | None => Redirect "login"
  | Some _ =>
      Render "index.html" {[ "user_name" := default JNull (session !! "user_name") ]}
  end.

(** [/register]; [form] is [request.form], [users] the collection. *)
Definition register (env : AuthEnv) (users : list User) (method : string)
    (form : gmap string string) : View * list User :=
  if String.eqb method "POST" then
    let name := form !! "name" in
    let email := form !! "email" in
    let password := form !! "password" in
    let confirm_password := form !! "confirm_password" in
    if negb (bool_decide (password = confirm_password)) then
      (Render "register.html" {[ "error" := JStr "Passwords do not match" ]}, users)
    else
      match find_one email users with
      | Some _ =>
          (Render "register.html" {[ "error" := JStr "Email already exists" ]}, users)
      | None =>
          match generate_password_hash env password with
          | None => (Unhandled, users)
          | Some hashed_password =>
              (Redirect "login",
               (users ++ [ {| user_oid := new_object_id env;
                              user_name := name;
                              user_email := email;
                              user_password := hashed_password;
                              user_created_at := utcnow env |} ])%list)
          end
      end
  else (Render "register.html" ∅, users).

(** [/login] *)
Definition login (env : AuthEnv) (users : list User) (session : gmap string json)
    (method : string) (form : gmap string string) : View * gmap string json :=
  if String.eqb method "POST" then
    let email := form !! "email" in
    let password := form !! "password" in
    match find_one email users with
    | Some user =>
        match check_password_hash env (user_password user) password with
        | None => (Unhandled, session)
        | Some true =>
            (Redirect "index",
             <[ "user_name" := opt_str (user_name user) ]>
               (<[ "user_id" := JStr (user_oid user) ]> session))
        | Some false =>
            (Render "login.html" {[ "error" := JStr "Invalid email or password" ]},
             session)
        end
    | None =>
        (Render "login.html" {[ "error" := JStr "Invalid email or password" ]},
         session)
    end
  else (Render "login.html" ∅, session).

(** [/logout] *)
Definition logout (session : gmap string json) : View * gmap string json :=
  (Redirect "login", ∅).

(** ** Ensemble fusion

    [api_verify] fuses nothing (its result is a literal) and the verifier
    module [verify_optimized], which [api_analyze] calls, is not part of
    [app.py]; the decision function is therefore taken from the design
    document. *)

Module Fusion.

(** Modelled from the spec: a vote is a classifier identifier, a score
    between 0 and 100 and a boolean verdict; a classifier may declare a
    configured weight. *)
Record Vote := {
  classifier : string;
  score : Q;
  verdict : bool;
  weight : option Q;
}.

(** Modelled from the spec: the final decision is one of two values. *)
Inductive Decision := AUTHENTICATED | REJECTED.

(** Modelled from the spec: what [fuse] produces. *)
Record VerificationResult := {
  is_authentic : bool;
  confidence : Q;
  ensemble_decision : string;
  model_agreement : Q;
  final_decision : Decision;
}.

(** Modelled from the spec: equal weight unless a classifier declares one. *)
Definition vote_weight (v : Vote) : Q := default 1%Q (weight v).

Definition Qsum (l : list Q) : Q := foldr Qplus 0%Q l.

(** Modelled from the spec: the confidence is the weighted average of the
    vote scores. *)
Definition fused_confidence (votes : list Vote) : Q :=
  (Qsum ((fun v => vote_weight v * score v) <$> votes)
   / Qsum (vote_weight <$> votes))%Q.

Definition count_verdict (b : bool) (votes : list Vote) : nat :=
  length (filter (fun v => verdict v = b) votes).

(** Modelled from the spec: the majority verdict; an even split resolves
    toward rejection. *)
Definition majority_verdict (votes : list Vote) : bool :=
  (count_verdict false votes <? count_verdict true votes)%nat.

(** Modelled from the spec: the agreement is the percentage of votes whose
    verdict is the majority verdict. *)
Definition fused_agreement (votes : list Vote) : Q :=
  (100 * inject_Z (Z.of_nat (count_verdict (majority_verdict votes) votes))
   / inject_Z (Z.of_nat (length votes)))%Q.

(** Modelled from the spec: [fuse(votes)] with the two configured thresholds.
    [None] stands for [ModelUnavailableError("no_votes")].  The decision is
    AUTHENTICATED when the confidence reaches [confidence_threshold] and the
    agreement reaches [agreement_threshold], REJECTED otherwise;
    [is_authentic] mirrors it and the label follows the majority verdict. *)
Definition fuse (confidence_threshold agreement_threshold : Q)
    (votes : list Vote) : option VerificationResult :=
  match votes with
  | [] => None
  | _ =>
      let authentic :=
        Qle_bool confidence_threshold (fused_confidence votes)
        && Qle_bool agreement_threshold (fused_agreement votes) in
      Some {| is_authentic := authentic;
              confidence := fused_confidence votes;
              ensemble_decision :=
                if majority_verdict votes then "Legitimate" else "Impostor";
              model_agreement := fused_agreement votes;
              final_decision := if authentic then AUTHENTICATED else REJECTED |}
  end.

End Fusion.

(** * Vocabulary of the properties *)

(** ** Numerals and sample numbers *)

(** Characters [str] can produce: a digit or the minus sign. *)
Definition numeral_char (c : ascii) : bool :=
  bool_decide (is_Some (Py.digit_val c)) || Ascii.eqb c "-".

Fixpoint numeral (s : string) : bool :=
  match s with
  | EmptyString => true
  | String c s' => numeral_char c && numeral s'
  end.

(** [k] is one of the numbers the loop collects from directory [d]. *)
Definition counted (d : data_dir) (k : Z) : Prop :=
  exists f, f ∈ default [] d /\ is_sample_file f = true
            /\ sample_number_of f = Some k.

(** ** Requests and answers *)

(** Parts of an answer. *)
Definition result_of (r : Response) : option json := field "result" (body r).

Definition verification_result (r : Response) : option json :=
  result_of r ≫= field "authentication_result".

Definition final_decision (r : Response) : option json :=
  verification_result r ≫= field "final_decision".

Definition statistics_of (r : Response) : option json :=
  result_of r ≫= field "typing_statistics".

Definition file_info_of (r : Response) : option json :=
  result_of r ≫= field "file_info".

(** The request carries a dictionary whose ['keystrokes'] entry [ks] has a
    length [n]: the checks up to [len(keystrokes)] pass. *)
Definition carries (request : exn + json) (ks : json) (n : Z) : Prop :=
  exists m, request = inr (JObj m) /\ m !! "keystrokes" = Some ks
            /\ py_len ks = inr n.

(** The request gets to the point where the result is built: it passes the
    minimum-keystroke check, feature extraction returns and a verifier is
    there. *)
Definition reaches_verification (cfg : Config) (env : Env) (st : State)
    (request : exn + json) (ks : json) (n : Z)
    (features : gmap string json) : Prop :=
  carries request ks n /\ MIN_KEYSTROKES cfg <= n
  /\ extract_comprehensive_features env ks = inr features
  /\ is_Some (get_verifier env st).1.

(** The request is refused by the checks on the input alone. *)
Definition refused (cfg : Config) (request : exn + json) : Prop :=
  exists data, request = inr data
    /\ (truthy data = false \/ py_in "keystrokes" data = inr false
        \/ exists ks n, carries request ks n /\ n < MIN_KEYSTROKES cfg).

(** A JSON number as a rational. *)
Definition number (j : json) : option Q :=
  match j with
  | JInt z => Some (inject_Z z)
  | JFloat q => Some q
  | _ => None
  end.

(** An event [{key, pressTime, releaseTime}] whose release precedes its press. *)
Definition malformed_timing (event : json) : Prop :=
  exists p r, field "pressTime" event ≫= number = Some p
              /\ field "releaseTime" event ≫= number = Some r
              /\ (r < p)%Q.

(** The configuration with other thresholds. *)
Definition with_thresholds (cfg : Config) (c a : Q) : Config :=
  {| MIN_KEYSTROKES := MIN_KEYSTROKES cfg;
     CONFIDENCE_THRESHOLD := c;
     AGREEMENT_THRESHOLD := a;
     DATA_DIR := DATA_DIR cfg |}.

(** The environment in which writing the CSV file always raises, so that
    [save_keystroke_data] returns [(None, None)]. *)
Definition failing_disk (env : Env) : Env :=
  {| now_isoformat := now_isoformat env;
     now_timestamp := now_timestamp env;
     type_error_str := type_error_str env;
     load_verifier := load_verifier env;
     to_csv := fun _ _ => false;
     extract_comprehensive_features := extract_comprehensive_features env;
     save_upload := save_upload env;
     to_csv_leaves_file := to_csv_leaves_file env;
     save_upload_leaves_file := save_upload_leaves_file env;
     uploads_in_data_dir := uploads_in_data_dir env |}.

(** The environment in which writing the CSV file always raises after the
    file has been opened: the file is left on disk, empty or partial. *)
Definition truncating_disk (env : Env) : Env :=
  {| now_isoformat := now_isoformat env;
     now_timestamp := now_timestamp env;
     type_error_str := type_error_str env;
     load_verifier := load_verifier env;
     to_csv := fun _ _ => false;
     extract_comprehensive_features := extract_comprehensive_features env;
     save_upload := save_upload env;
     to_csv_leaves_file := fun _ _ => true;
     save_upload_leaves_file := save_upload_leaves_file env;
     uploads_in_data_dir := uploads_in_data_dir env |}.

(** An environment without a verifier in which [pd.DataFrame] and the
    feature extractor behave as [offline_env] says on a list of events, and
    [pd.DataFrame] raises on keystrokes that are no list: pandas refuses a
    string with "DataFrame constructor not properly called!", in
    [save_keystroke_data], where it is caught, and again in [api_verify]. *)
Definition pandas_env : Env :=
  {| now_isoformat := "2024-05-01T10:00:00";
     now_timestamp := "1714557600.0";
     type_error_str := fun _ => "TypeError";
     load_verifier := None;
     to_csv := fun ks _ => match ks with JArr _ => true | _ => false end;
     extract_comprehensive_features := fun ks =>
       match ks with
       | JArr _ => inr (list_to_map [("dwell_mean", JFloat 70)])
       | _ => inl (Raised "DataFrame constructor not properly called!")
       end;
     save_upload := fun _ _ => None;
     to_csv_leaves_file := fun _ _ => false;
     save_upload_leaves_file := fun _ _ => false;
     uploads_in_data_dir := true |}.

(** An environment without a verifier whose feature extractor raises. *)
Definition broken_extractor_env : Env :=
  {| now_isoformat := "2024-05-01T10:00:00";
     now_timestamp := "1714557600.0";
     type_error_str := fun _ => "TypeError";
     load_verifier := None;
     to_csv := fun _ _ => true;
     extract_comprehensive_features := fun _ => inl (Raised "extraction failed");
     save_upload := fun _ _ => None;
     to_csv_leaves_file := fun _ _ => false;
     save_upload_leaves_file := fun _ _ => false;
     uploads_in_data_dir := true |}.

(** The votes of the design document's example: scores 90, 85 and 40 with
    verdicts true, true and false, equal weights. *)
Definition example_votes : list Fusion.Vote :=
  [ {| Fusion.classifier := "c1"; Fusion.score := 90;
       Fusion.verdict := true; Fusion.weight := None |};
    {| Fusion.classifier := "c2"; Fusion.score := 85;
       Fusion.verdict := true; Fusion.weight := None |};
    {| Fusion.classifier := "c3"; Fusion.score := 40;
       Fusion.verdict := false; Fusion.weight := None |} ].

(** The wire names of the typing statistics and the feature each one carries. *)
Definition statistics_fields : list (string * string) :=
  [("dwell_time_mean", "dwell_mean"); ("dwell_time_std", "dwell_std");
   ("flight_time_mean", "flight_mean"); ("flight_time_std", "flight_std");
   ("total_time", "total_time"); ("typing_speed", "typing_speed");
   ("dwell_flight_ratio", "dwell_flight_ratio")].

(** ** Concrete requests *)

Definition event (k : string) (press release : Z) : json :=
  dict [("key", JStr k); ("pressTime", JInt press); ("releaseTime", JInt release)].

Definition request_of (events : list json) : exn + json :=
  inr (dict [("keystrokes", JArr events)]).

Definition three_events : list json :=
  [event "a" 0 80; event "b" 150 210; event "c" 300 360].

(** The second event is released before it is pressed. *)
Definition backwards_events : list json :=
  [event "a" 0 80; event "b" 150 100; event "c" 300 360].

Definition one_event : list json := [event "a" 0 80].

Definition three_features : gmap string json :=
  list_to_map [("dwell_mean", JFloat 70); ("dwell_std", JFloat 10);
               ("flight_mean", JFloat 80); ("total_time", JInt 360);
               ("dwell_flight_ratio", JFloat (7 # 8))].

(** A verifier that rejects every file. *)
Definition rejecting_verifier : Verifier :=
  {| verify_keystroke_file := fun _ _ =>
       inr (dict [("authentication_result",
                   dict [("is_authentic", JBool false);
                         ("final_decision", JStr "REJECTED")])]) |}.

Definition demo_env : Env :=
  {| now_isoformat := "2024-05-01T10:00:00";
     now_timestamp := "1714557600.0";
     type_error_str := fun _ => "TypeError";
     load_verifier := Some rejecting_verifier;
     to_csv := fun _ _ => true;
     extract_comprehensive_features := fun _ => inr three_features;
     save_upload := fun _ _ => None;
     to_csv_leaves_file := fun _ _ => false;
     save_upload_leaves_file := fun _ _ => false;
     uploads_in_data_dir := true |}.

(** The same, with a verifier that cannot be loaded. *)
Definition offline_env : Env :=
  {| now_isoformat := "2024-05-01T10:00:00";
     now_timestamp := "1714557600.0";
     type_error_str := fun _ => "TypeError";
     load_verifier := None;
     to_csv := fun _ _ => true;
     extract_comprehensive_features := fun _ => inr three_features;
     save_upload := fun _ _ => None;
     to_csv_leaves_file := fun _ _ => false;
     save_upload_leaves_file := fun _ _ => false;
     uploads_in_data_dir := true |}.

Definition demo_cfg : Config :=
  {| MIN_KEYSTROKES := 3;
     CONFIDENCE_THRESHOLD := 90;
     AGREEMENT_THRESHOLD := 60;
     DATA_DIR := "data" |}.

Definition demo_state : State :=
  {| dir := Some ["sample1.csv"; "sample2.csv"]; verifier := None |}.

Definition demo_upload (events : list json) : gmap string Upload :=
  {[ "file" := {| upload_filename := "session.csv";
                  upload_content := JArr events |} ]}.

(** The environment in which loading the verifier gives [v]. *)
Definition with_verifier (env : Env) (v : Verifier) : Env :=
  {| now_isoformat := now_isoformat env;
     now_timestamp := now_timestamp env;
     type_error_str := type_error_str env;
     load_verifier := Some v;
     to_csv := to_csv env;
     extract_comprehensive_features := extract_comprehensive_features env;
     save_upload := save_upload env;
     to_csv_leaves_file := to_csv_leaves_file env;
     save_upload_leaves_file := save_upload_leaves_file env;
     uploads_in_data_dir := uploads_in_data_dir env |}.

(** ** Concrete accounts *)

(** Password functions that prefix the password and compare; both raise on a
    missing password. *)
Definition demo_auth_env : AuthEnv :=
  {| generate_password_hash := fun p =>
       match p with Some s => Some ("hashed:" +:+ s) | None => None end;
     check_password_hash := fun h p =>
       match p with
       | Some s => Some (String.eqb h ("hashed:" +:+ s))
       | None => None
       end;
     utcnow := "2024-05-01T08:00:00";
     new_object_id := "662f0a00c0ffee0000000002" |}.

Definition alice : User :=
  {| user_oid := "662f0a00c0ffee0000000001";
     user_name := Some "Alice";
     user_email := Some "alice@example.org";
     user_password := "hashed:wonderland";
     user_created_at := "2024-04-30T08:00:00" |}.

Definition bob_form : gmap string string :=
  list_to_map [("name", "Bob"); ("email", "bob@example.org");
               ("password", "builder"); ("confirm_password", "builder")].

Definition bob_login_form : gmap string string :=
  list_to_map [("email", "bob@example.org"); ("password", "builder")].

(** * Properties *)

(** ** Decimal numerals: [int] reads back what [str] prints *)

Section Numerals.

Lemma digit_val_pretty_N_char (y : N) :
  (y < 10)%N -> Py.digit_val (pretty_N_char y) = Some (Z.of_N y).
Proof.
  intros Hy.
  assert (y = 0 \/ y = 1 \/ y = 2 \/ y = 3 \/ y = 4 \/ y = 5 \/ y = 6
          \/ y = 7 \/ y = 8 \/ y = 9)%N as Hcases by lia.
  repeat (destruct Hcases as [-> | Hcases]; [reflexivity |]).
  subst y. reflexivity.
Qed.

Lemma numeral_pretty_N_go (x : N) (s : string) :
  numeral s = true -> numeral (pretty_N_go x s) = true.
Proof.
  revert s. induction (N.lt_wf_0 x) as [x _ IH]. intros s Hs.
  destruct (decide (x = 0%N)) as [-> | Hx].
  - by rewrite pretty_N_go_0.
  - rewrite pretty_N_go_step by lia.
    apply IH; [apply N.div_lt; lia |].
    simpl. rewrite Hs, andb_true_r. unfold numeral_char.
    rewrite (digit_val_pretty_N_char (x `mod` 10)) by (apply N.mod_lt; lia).
    by rewrite bool_decide_eq_true_2.
Qed.

(** A positive number prints as a string that starts with a digit, and
    reading it gives the number back, followed by whatever comes after. *)
Lemma int_unsigned_pretty_N_go (x : N) (s : string) :
  (0 < x)%N ->
  exists c t d,
    pretty_N_go x s = String c t /\ Py.digit_val c = Some d
    /\ Py.int_unsigned (String c t) = Py.int_digits (Z.of_N x) s.
Proof.
  revert s. induction (N.lt_wf_0 x) as [x _ IH]. intros s Hx.
  rewrite pretty_N_go_step by done.
  pose proof (digit_val_pretty_N_char (x `mod` 10)) as Hd.
  specialize (Hd ltac:(apply N.mod_lt; lia)).
  destruct (decide (x `div` 10 = 0)%N) as [Hq | Hq].
  - rewrite Hq, pretty_N_go_0.
    exists (pretty_N_char (x `mod` 10)), s, (Z.of_N (x `mod` 10)).
    split; [done |]. split; [done |].
    simpl. rewrite Hd. f_equal.
    pose proof (N.div_mod x 10 ltac:(lia)). lia.
  - assert (x `div` 10 < x)%N as Hlt by (apply N.div_lt; lia).
    assert (0 < x `div` 10)%N as Hpos by (by apply N.neq_0_lt_0).
    destruct (IH _ Hlt (String (pretty_N_char (x `mod` 10)) s) Hpos)
      as (c & t & d & Heq & Hc & Hint).
    exists c, t, d. split; [done |]. split; [done |].
    rewrite Hint. simpl. rewrite Hd. f_equal.
    pose proof (N.div_mod x 10 ltac:(lia)). lia.
Qed.

Lemma numeral_str (k : Z) : numeral (Py.str k) = true.
Proof.
  unfold Py.str, pretty, pretty_Z.
  destruct k as [| p | p]; [done | |].
  - unfold pretty, pretty_positive, pretty, pretty_N.
    case_decide; [done |]. by apply numeral_pretty_N_go.
  - simpl. unfold pretty, pretty_positive, pretty, pretty_N.
    case_decide; [done |]. by apply numeral_pretty_N_go.
Qed.

Lemma int_positive (p : positive) :
  Py.int_unsigned (pretty (N.pos p)) = Some (Z.pos p)
  /\ exists c t d, pretty (N.pos p) = String c t /\ Py.digit_val c = Some d.
Proof.
  unfold pretty, pretty_N. case_decide; [done |].
  destruct (int_unsigned_pretty_N_go (N.pos p) "" ltac:(lia))
    as (c & t & d & Heq & Hc & Hint).
  rewrite Heq. split; [| by eauto].
  rewrite Hint. reflexivity.
Qed.

Lemma digit_not_special (c : ascii) (d : Z) :
  Py.digit_val c = Some d ->
  Py.is_space c = false /\ c <> "-"%char /\ c <> "+"%char.
Proof.
  intros H. repeat split; [| by intros -> | by intros ->].
  destruct (Py.is_space c) eqn:Hsp; [| done].
  destruct c as [[] [] [] [] [] [] [] []];
    vm_compute in H, Hsp; congruence.
Qed.

(** [int(str(k)) == k] *)
Lemma int_str (k : Z) : Py.int (Py.str k) = Some k.
Proof.
  unfold Py.str, pretty, pretty_Z. destruct k as [| p | p]; [done | |].
  - destruct (int_positive p) as [Hint (c & t & d & Heq & Hc)].
    unfold pretty, pretty_positive. unfold Py.int.
    destruct (digit_not_special c d Hc) as (Hsp & Hm & Hp).
    rewrite Heq in *. simpl. rewrite Hsp.
    destruct c as [[] [] [] [] [] [] [] []]; try done.
  - destruct (int_positive p) as [Hint _].
    unfold pretty, pretty_positive. unfold Py.int. simpl.
    change ("" +:+ pretty (N.pos p)) with (pretty (N.pos p)).
    by rewrite Hint.
Qed.

End Numerals.

(** ** Sample file names *)

Section SampleNames.

Lemma rev_app_append (s t acc : string) :
  String.rev_app (s +:+ t) acc = String.rev_app t (String.rev_app s acc).
Proof. revert acc. induction s as [| c s IH]; intros acc; [done |]. apply IH. Qed.

Lemma prefix_rev_app (p a b : string) :
  String.prefix a b = true ->
  String.prefix (String.rev_app p a) (String.rev_app p b) = true.
Proof.
  revert a b. induction p as [| c p IH]; intros a b Hab; [done |].
  simpl. apply IH. simpl. by destruct (ascii_dec c c).
Qed.

(** [(p + s).startswith(p)] *)
Lemma startswith_append (p s : string) : Py.startswith p (p +:+ s) = true.
Proof.
  unfold Py.startswith. induction p as [| c p IH]; [by destruct s |].
  change (String c p +:+ s) with (String c (p +:+ s)).
  cbn [String.prefix]. by destruct (ascii_dec c c).
Qed.

(** [(s + p).endswith(p)] *)
Lemma endswith_append (p s : string) : Py.endswith p (s +:+ p) = true.
Proof.
  unfold Py.endswith, String.rev. rewrite rev_app_append.
  apply prefix_rev_app. by destruct (String.rev_app s "").
Qed.

Lemma prefix_head_ne (a b : ascii) (p s : string) :
  a <> b -> String.prefix (String a p) (String b s) = false.
Proof. intros Hab. cbn [String.prefix]. by destruct (ascii_dec a b). Qed.

Lemma remove_go_keep (old : string) (c : ascii) (s : string) :
  String.prefix old (String c s) = false ->
  Py.remove_go old 0 (String c s) = String c (Py.remove_go old 0 s).
Proof. intros H. cbn [Py.remove_go]. by rewrite H. Qed.

Lemma remove_go_drop (old s t : string) :
  Py.remove_go old (String.length s) (s +:+ t) = Py.remove_go old 0 t.
Proof.
  induction s as [| c s IH]; [done |].
  change (String c s +:+ t) with (String c (s +:+ t)). apply IH.
Qed.

(** [(old + s).replace(old, '') == s.replace(old, '')] *)
Lemma remove_prefix (old s : string) :
  old <> "" -> Py.remove old (old +:+ s) = Py.remove old s.
Proof.
  intros Hne. unfold Py.remove.
  pose proof (startswith_append old s) as Hpre. unfold Py.startswith in Hpre.
  destruct old as [| c old]; [done |].
  change (String c old +:+ s) with (String c (old +:+ s)) in *.
  cbn [Py.remove_go]. rewrite Hpre. apply remove_go_drop.
Qed.

Lemma numeral_char_ne (c c' : ascii) :
  numeral_char c = true -> numeral_char c' = false -> c' <> c.
Proof. intros Hc Hc' ->. congruence. Qed.

Lemma remove_sample_numeral (x : string) :
  numeral x = true -> Py.remove "sample" (x +:+ ".csv") = x +:+ ".csv".
Proof.
  unfold Py.remove. induction x as [| c x IH]; intros Hx; [done |].
  cbn [numeral] in Hx. apply andb_true_iff in Hx as [Hc Hx].
  change (String c x +:+ ".csv") with (String c (x +:+ ".csv")).
  rewrite remove_go_keep, IH; [done.. |].
  apply prefix_head_ne. by apply (numeral_char_ne c).
Qed.

Lemma remove_csv_numeral (x : string) :
  numeral x = true -> Py.remove ".csv" (x +:+ ".csv") = x.
Proof.
  unfold Py.remove. induction x as [| c x IH]; intros Hx; [done |].
  cbn [numeral] in Hx. apply andb_true_iff in Hx as [Hc Hx].
  change (String c x +:+ ".csv") with (String c (x +:+ ".csv")).
  rewrite remove_go_keep, IH; [done.. |].
  apply prefix_head_ne. by apply (numeral_char_ne c).
Qed.

(** The name [save_keystroke_data] gives a sample is one that
    [get_next_sample_number] keeps, and it is read back as the same number. *)
Lemma is_sample_file_sample_filename (k : Z) :
  is_sample_file (sample_filename k) = true.
Proof.
  unfold is_sample_file, sample_filename. apply andb_true_iff.
  split; [apply startswith_append |].
  replace ("sample" +:+ Py.str k +:+ ".csv")
    with (("sample" +:+ Py.str k) +:+ ".csv") by reflexivity.
  apply endswith_append.
Qed.

Lemma sample_number_of_sample_filename (k : Z) :
  sample_number_of (sample_filename k) = Some k.
Proof.
  unfold sample_number_of, sample_filename.
  rewrite remove_prefix by done.
  rewrite remove_sample_numeral, remove_csv_numeral by apply numeral_str.
  apply int_str.
Qed.

End SampleNames.

(** ** [get_next_sample_number] *)

Section NextSampleNumber.

Lemma max_elem (n : Z) (ns : list Z) : Py.max n ns ∈ n :: ns.
Proof.
  induction ns as [| a ns IH]; [by left |].
  cbn [Py.max foldr]. fold (Py.max n ns).
  destruct (Z.max_spec a (Py.max n ns)) as [[_ ->] | [_ ->]].
  - apply elem_of_cons in IH as [-> | IH]; [by left | by do 2 right].
  - right. by left.
Qed.

Lemma max_upper (n : Z) (ns : list Z) (k : Z) :
  k ∈ n :: ns -> k <= Py.max n ns.
Proof.
  induction ns as [| a ns IH]; intros Hk.
  - apply list_elem_of_singleton in Hk as ->. reflexivity.
  - cbn [Py.max foldr]. fold (Py.max n ns).
    apply elem_of_cons in Hk as [-> | Hk]; [| apply elem_of_cons in Hk as [-> | Hk]].
    + etrans; [apply IH; by left | apply Z.le_max_r].
    + apply Z.le_max_l.
    + etrans; [apply IH; by right | apply Z.le_max_r].
Qed.

Lemma counted_numbers (d : data_dir) (k : Z) :
  counted d k <->
  k ∈ sample_numbers (filter (fun f => is_sample_file f = true) (default [] d)).
Proof.
  unfold counted, sample_numbers. rewrite list_elem_of_omap.
  split.
  - intros (f & Hf & Hs & Hk). exists f. by rewrite list_elem_of_filter.
  - intros (f & Hf & Hk). apply list_elem_of_filter in Hf as [Hs Hf]. eauto.
Qed.

(** The two outcomes of the function: [1] when nothing is counted, else one
    more than a counted number that bounds all the others. *)
Lemma get_next_sample_number_cases (d : data_dir) :
  ((forall k, ~ counted d k) /\ (get_next_sample_number d).1 = 1)
  \/ (counted d ((get_next_sample_number d).1 - 1)
      /\ forall k, counted d k -> k <= (get_next_sample_number d).1 - 1).
Proof.
  pose proof (counted_numbers d) as Hc.
  destruct d as [l |]; last first.
  { left. split; [| done]. intros k Hk%Hc. by apply elem_of_nil in Hk. }
  unfold get_next_sample_number. cbv zeta.
  cbn [default from_option id] in *.
  destruct (filter _ l) as [| f fs] eqn:Hfilter.
  { left. split; [| done]. intros k Hk%Hc. by apply elem_of_nil in Hk. }
  destruct (sample_numbers (f :: fs)) as [| n ns] eqn:Hnum.
  { left. split; [| done]. intros k Hk%Hc. by apply elem_of_nil in Hk. }
  right. cbn [fst]. replace (Py.max n ns + 1 - 1) with (Py.max n ns) by lia.
  split.
  - apply Hc, max_elem.
  - intros k Hk%Hc. by apply max_upper.
Qed.

(** The directory exists afterwards, with the names it had. *)
Lemma get_next_sample_number_dir (d : data_dir) :
  (get_next_sample_number d).2 = Some (default [] d).
Proof.
  unfold get_next_sample_number.
  destruct d as [l |]; cbn [default from_option id].
  - destruct (filter _ l); [done |]. by destruct (sample_numbers _).
  - done.
Qed.

(** "Next available": no file of the directory has the name that
    [save_keystroke_data] builds from the returned number. *)
Lemma get_next_sample_number_fresh (d : data_dir) :
  sample_filename (get_next_sample_number d).1 ∉ default [] d.
Proof.
  intros Hin.
  assert (counted d (get_next_sample_number d).1) as Hc.
  { exists (sample_filename (get_next_sample_number d).1).
    auto using is_sample_file_sample_filename, sample_number_of_sample_filename. }
  destruct (get_next_sample_number_cases d) as [[Hnone _] | [_ Hmax]].
  - by eapply Hnone.
  - apply Hmax in Hc. lia.
Qed.

End NextSampleNumber.

(** ** [api_verify]: which requests get which answer *)

Section VerifyAnswers.

Context (cfg : Config) (env : Env) (st : State).

Lemma save_keystroke_data_verifier (ks : json) :
  verifier (save_keystroke_data cfg env st ks).2 = verifier st.
Proof.
  unfold save_keystroke_data.
  destruct (get_next_sample_number (dir st)) as [k d].
  by destruct (to_csv env ks _).
Qed.

Lemma get_verifier_after_save (ks : json) :
  (get_verifier env (save_keystroke_data cfg env st ks).2).1
  = (get_verifier env st).1.
Proof.
  unfold get_verifier. rewrite save_keystroke_data_verifier.
  by destruct (verifier st).
Qed.

(** The answer to a request that carries keystrokes, step by step. *)
Lemma api_verify_carries (request : exn + json) (ks : json) (n : Z) :
  carries request ks n ->
  (api_verify cfg env st request).1 =
    if n <? MIN_KEYSTROKES cfg then
      error_response ("Insufficient keystrokes. Minimum required: "
                        +:+ Py.str (MIN_KEYSTROKES cfg)) 400
    else
      match extract_comprehensive_features env ks with
      | inl e => verify_failed env e
      | inr features =>
          match (get_verifier env st).1 with
          | None => error_response "Verification system not available" 503
          | Some _ =>
              verify_success env
                (snd <$> (save_keystroke_data cfg env st ks).1) n features
          end
      end.
Proof.
  intros (m & -> & Hks & Hlen). unfold api_verify.
  assert (m <> ∅) as Hne by (intros ->; by rewrite lookup_empty in Hks).
  cbn [truthy py_in py_getitem]. rewrite Hks, Hlen.
  rewrite bool_decide_eq_false_2 by done.
  rewrite bool_decide_eq_true_2 by done. cbn [negb].
  destruct (n <? MIN_KEYSTROKES cfg); [done |].
  pose proof (get_verifier_after_save ks) as Hv.
  destruct (save_keystroke_data cfg env st ks) as [saved st1].
  destruct (extract_comprehensive_features env ks); [done |].
  cbn [fst snd] in *. rewrite <- Hv.
  destruct (get_verifier env st1) as [[v |] st2]; done.
Qed.

(** A request that carries no keystrokes is answered without looking at the
    configuration, the environment or the state, and never with 200 or 503. *)
Lemma api_verify_not_carries (request : exn + json) :
  (forall ks n, ~ carries request ks n) ->
  let r := (api_verify cfg env st request).1 in
  (status_code r = 400 \/ status_code r = 500)
  /\ (status_code r = 400 <->
      exists data, request = inr data
        /\ (truthy data = false \/ py_in "keystrokes" data = inr false)).
Proof.
  intros Hno. unfold api_verify.
  destruct request as [e | data].
  { split; [by right |]. split; [done | by intros (? & ? & _)]. }
  destruct (truthy data) eqn:Htruthy; cbn [negb]; last first.
  { split; [by left |]. split; [eauto | done]. }
  destruct (py_in "keystrokes" data) as [e | [|]] eqn:Hin.
  - split; [by right |]. split; [done |].
    intros (? & [= <-] & [? | ?]); congruence.
  - destruct data as [| b | z | q | s | l | m]; cbn [py_getitem];
      try (split; [by right |]; split; [done |];
           intros (? & [= <-] & [? | ?]); congruence).
    pose proof Hin as Hin'. cbn in Hin'.
    destruct (m !! "keystrokes") as [ks |] eqn:Hks; last first.
    { rewrite bool_decide_eq_false_2 in Hin' by (by intros [? ?]). done. }
    destruct (py_len ks) as [e | n] eqn:Hlen.
    + cbn. split; [by right |]. split; [done |].
      intros (? & [= <-] & [? | ?]); congruence.
    + exfalso. apply (Hno ks n). by exists m.
  - split; [by left |]. split; [eauto | done].
Qed.

Lemma carries_functional (request : exn + json) (ks ks' : json) (n n' : Z) :
  carries request ks n -> carries request ks' n' -> ks = ks' /\ n = n'.
Proof.
  intros (m & -> & Hks & Hlen) (m' & [= <-] & Hks' & Hlen').
  rewrite Hks in Hks'. injection Hks' as <-.
  rewrite Hlen in Hlen'. by injection Hlen' as <-.
Qed.

Lemma carries_or_not (request : exn + json) :
  (exists ks n, carries request ks n) \/ (forall ks n, ~ carries request ks n).
Proof.
  destruct request as [e | data]; [right; by intros ks n (m & [=] & _) |].
  destruct data as [| b | z | q | s | l | m];
    try (right; by intros ks n (m' & [=] & _)).
  destruct (m !! "keystrokes") as [ks |] eqn:Hks; last first.
  { right. intros ks n (m' & [= <-] & Hks' & _). congruence. }
  destruct (py_len ks) as [e | n] eqn:Hlen.
  - right. intros ks' n (m' & [= <-] & Hks' & Hlen'). congruence.
  - left. exists ks, n, m. done.
Qed.

(** Status 200 is the answer of exactly the requests that reach the
    verification step, and the answer is the success document. *)
Lemma api_verify_success (request : exn + json) (ks : json) (n : Z)
    (features : gmap string json) :
  reaches_verification cfg env st request ks n features ->
  (api_verify cfg env st request).1 =
    verify_success env (snd <$> (save_keystroke_data cfg env st ks).1) n features.
Proof.
  intros (Hc & Hmin & Hex & [v Hv]).
  rewrite (api_verify_carries _ _ _ Hc), Hex, Hv.
  by rewrite (proj2 (Z.ltb_ge _ _)).
Qed.

Lemma api_verify_200 (request : exn + json) :
  status_code (api_verify cfg env st request).1 = 200 ->
  exists ks n features, reaches_verification cfg env st request ks n features.
Proof.
  intros H200.
  destruct (carries_or_not request) as [(ks & n & Hc) | Hno]; last first.
  { destruct (api_verify_not_carries request Hno) as [[H | H] _];
      rewrite H in H200; discriminate. }
  rewrite (api_verify_carries _ _ _ Hc) in H200.
  destruct (n <? MIN_KEYSTROKES cfg) eqn:Hmin; [discriminate |].
  destruct (extract_comprehensive_features env ks) as [e | features] eqn:Hex;
    [discriminate |].
  destruct (get_verifier env st).1 as [v |] eqn:Hv; [| discriminate].
  apply Z.ltb_ge in Hmin.
  exists ks, n, features. by repeat split.
Qed.

(** Among the requests that carry keystrokes, the refused ones are those
    with fewer than [MIN_KEYSTROKES] of them. *)
Lemma refused_carries (request : exn + json) (ks : json) (n : Z) :
  carries request ks n -> refused cfg request <-> n < MIN_KEYSTROKES cfg.
Proof.
  intros Hc. pose proof Hc as (m & -> & Hks & Hlen).
  assert (truthy (JObj m) = true) as Htruthy.
  { cbn. rewrite bool_decide_eq_false_2; [done |].
    intros ->. by rewrite lookup_empty in Hks. }
  assert (py_in "keystrokes" (JObj m) = inr true) as Hin.
  { cbn. by rewrite Hks, bool_decide_eq_true_2. }
  split.
  - intros (data & [= <-] & [H | [H | (ks' & n' & Hc' & Hlt)]]);
      [congruence.. |].
    by destruct (carries_functional _ _ _ _ _ Hc Hc') as [<- <-].
  - intros Hlt. exists (JObj m). split; [done |]. do 2 right. by exists ks, n.
Qed.

(** Status 400 is the answer of exactly the refused requests. *)
Lemma api_verify_400 (request : exn + json) :
  status_code (api_verify cfg env st request).1 = 400 <-> refused cfg request.
Proof.
  destruct (carries_or_not request) as [(ks & n & Hc) | Hno].
  - rewrite (refused_carries _ _ _ Hc), (api_verify_carries _ _ _ Hc).
    destruct (n <? MIN_KEYSTROKES cfg) eqn:Hmin.
    + apply Z.ltb_lt in Hmin. done.
    + apply Z.ltb_ge in Hmin. split; [| lia].
      destruct (extract_comprehensive_features env ks); [done |].
      by destruct (get_verifier env st).1.
  - destruct (api_verify_not_carries request Hno) as [_ ->].
    split.
    + intros (data & -> & H). exists data. split; [done |]. tauto.
    + intros (data & -> & [H | [H | (ks & n & Hc & _)]]); [eauto.. |].
      by destruct (Hno ks n).
Qed.

(** Status 503 is the answer of exactly the requests that pass the input
    checks and feature extraction and then find no verifier. *)
Lemma api_verify_503 (request : exn + json) :
  status_code (api_verify cfg env st request).1 = 503 <->
  exists ks n features,
    carries request ks n /\ MIN_KEYSTROKES cfg <= n
    /\ extract_comprehensive_features env ks = inr features
    /\ (get_verifier env st).1 = None.
Proof.
  destruct (carries_or_not request) as [(ks & n & Hc) | Hno]; last first.
  { split.
    - intros H503.
      destruct (api_verify_not_carries request Hno) as [[H | H] _];
        rewrite H in H503; discriminate.
    - intros (ks & n & _ & Hc & _). by destruct (Hno ks n). }
  rewrite (api_verify_carries _ _ _ Hc). split.
  - destruct (n <? MIN_KEYSTROKES cfg) eqn:Hmin; [discriminate |].
    destruct (extract_comprehensive_features env ks) as [e | features] eqn:Hex;
      [discriminate |].
    destruct (get_verifier env st).1 as [v |] eqn:Hv; [discriminate |].
    apply Z.ltb_ge in Hmin.
    intros _. exists ks, n, features. by repeat split.
  - intros (ks' & n' & features & Hc' & Hmin & Hex & Hv).
    destruct (carries_functional _ _ _ _ _ Hc Hc') as [<- <-].
    by rewrite (proj2 (Z.ltb_ge _ _)), Hex, Hv.
Qed.

End VerifyAnswers.

(** ** The two entry points and their collaborators *)

(** The request built from a list of events carries that list. *)
Lemma carries_request_of (events : list json) :
  carries (request_of events) (JArr events) (Z.of_nat (length events)).
Proof.
  exists (list_to_map [("keystrokes", JArr events)]).
  split_and!; reflexivity.
Qed.

(** With the demo configuration, environment and state, three events or
    more reach the verification step. *)
Lemma demo_reaches_verification (events : list json) :
  3 <= Z.of_nat (length events) ->
  reaches_verification demo_cfg demo_env demo_state (request_of events)
    (JArr events) (Z.of_nat (length events)) three_features.
Proof.
  intros Hlen. split_and!; [apply carries_request_of | done | done | by eexists].
Qed.

(** Pressed at 150 and released at 100. *)
Lemma backwards_event_malformed : malformed_timing (event "b" 150 100).
Proof. exists (inject_Z 150), (inject_Z 100). by repeat split. Qed.

(** [api_verify] reads [MIN_KEYSTROKES] and [DATA_DIR] only: the thresholds
    have no influence on the answer or on the state. *)
Lemma api_verify_thresholds_irrelevant
    (cfg : Config) (env : Env) (st : State) (request : exn + json) (c a : Q) :
  api_verify (with_thresholds cfg c a) env st request
  = api_verify cfg env st request.
Proof. unfold api_verify, save_keystroke_data. reflexivity. Qed.

(** [api_verify] asks whether a verifier is there and never calls it: which
    verifier is loaded makes no difference to the answer. *)
Lemma api_verify_never_calls_verifier
    (cfg : Config) (env : Env) (d : data_dir) (request : exn + json)
    (v v' : Verifier) :
  (api_verify cfg (with_verifier env v) {| dir := d; verifier := None |} request).1
  = (api_verify cfg (with_verifier env v') {| dir := d; verifier := None |} request).1.
Proof.
  unfold api_verify. destruct request as [e | data]; [reflexivity |].
  destruct (negb (truthy data)); [reflexivity |].
  destruct (py_in "keystrokes" data) as [e | [|]]; try reflexivity.
  destruct (py_getitem "keystrokes" data) as [e | ks]; [reflexivity |].
  destruct (py_len ks) as [e | n]; [reflexivity |].
  destruct (n <? MIN_KEYSTROKES cfg); [reflexivity |].
  unfold save_keystroke_data. cbn [dir verifier to_csv with_verifier].
  destruct (get_next_sample_number d) as [k d'].
  destruct (to_csv env ks _);
    cbn [with_verifier extract_comprehensive_features];
    destruct (extract_comprehensive_features env ks); reflexivity.
Qed.

(** ** The answers of [api_analyze] *)

Section AnalyzeAnswers.

Context (env : Env).

(** Which verifier [get_verifier] returns depends on the cache only. *)
Lemma get_verifier_cache_only (st st' : State) :
  verifier st' = verifier st ->
  (get_verifier env st').1 = (get_verifier env st).1
  /\ verifier (get_verifier env st').2 = verifier (get_verifier env st).2
  /\ dir (get_verifier env st').2 = dir st'.
Proof.
  intros H. unfold get_verifier. rewrite H.
  destruct (verifier st) eqn:E; cbn [fst snd dir verifier]; split_and!;
    try reflexivity; congruence.
Qed.

Lemma upload_written_verifier (name : string) (st : State) :
  verifier (upload_written env name st) = verifier st.
Proof. unfold upload_written. by destruct (uploads_in_data_dir env). Qed.

Lemma upload_removed_verifier (name : string) (st : State) :
  verifier (upload_removed env name st) = verifier st.
Proof. unfold upload_removed. by destruct (uploads_in_data_dir env). Qed.

(** [file.save] leaves the cached verifier alone, whether it raises or not. *)
Lemma file_save_verifier (st : State) (file : Upload) (name path : string) :
  match file_save env st file name path with
  | inl (_, st0) | inr st0 => verifier st0 = verifier st
  end.
Proof.
  unfold file_save.
  destruct (uploads_in_data_dir env && negb (bool_decide (is_Some (dir st))));
    [reflexivity |].
  destruct (save_upload env file path); [| apply upload_written_verifier].
  destruct (save_upload_leaves_file env file path);
    [apply upload_written_verifier | reflexivity].
Qed.

(** The answer to an upload whose name passes the checks. *)
Lemma api_analyze_run (st : State) (files : gmap string Upload) (file : Upload) :
  files !! "file" = Some file ->
  upload_filename file <> "" ->
  Py.endswith ".csv" (upload_filename file) = true ->
  (api_analyze env st files).1 =
    match file_save env st file ("temp_upload_" +:+ now_timestamp env +:+ ".csv")
            (Py.path_join "data"
               ("temp_upload_" +:+ now_timestamp env +:+ ".csv")) with
    | inl (e, _) => analyze_failed env e
    | inr _ =>
        match (get_verifier env st).1 with
        | None => error_response "Verification system not available" 503
        | Some v =>
            match verify_keystroke_file v
                    (Py.path_join "data"
                       ("temp_upload_" +:+ now_timestamp env +:+ ".csv"))
                    (upload_content file) with
            | inl e => analyze_failed env e
            | inr result =>
                if truthy result
                then {| body := dict [("status", JStr "success"); ("result", result)];
                        status_code := 200 |}
                else error_response "Verification failed" 500
            end
        end
    end.
Proof.
  intros Hfile Hname Hcsv. unfold api_analyze. rewrite Hfile, Hcsv.
  rewrite (proj2 (String.eqb_neq _ _) Hname). cbn [negb].
  pose proof (file_save_verifier st file
                ("temp_upload_" +:+ now_timestamp env +:+ ".csv")
                (Py.path_join "data"
                   ("temp_upload_" +:+ now_timestamp env +:+ ".csv"))) as Hv.
  destruct (file_save env st file _ _) as [[e st0] | st0]; [reflexivity |].
  destruct (get_verifier_cache_only st st0 Hv) as (<- & _ & _).
  destruct (get_verifier env st0) as [[v |] st1]; [| reflexivity].
  cbn [fst].
  destruct (verify_keystroke_file v _ (upload_content file)) as [e | result];
    [reflexivity |].
  by destruct (truthy result).
Qed.

(** The cached verifier after an upload whose name passes the checks. *)
Lemma api_analyze_run_verifier
    (st : State) (files : gmap string Upload) (file : Upload) :
  files !! "file" = Some file ->
  upload_filename file <> "" ->
  Py.endswith ".csv" (upload_filename file) = true ->
  verifier (api_analyze env st files).2 =
    match file_save env st file ("temp_upload_" +:+ now_timestamp env +:+ ".csv")
            (Py.path_join "data"
               ("temp_upload_" +:+ now_timestamp env +:+ ".csv")) with
    | inl _ => verifier st
    | inr _ => verifier (get_verifier env st).2
    end.
Proof.
  intros Hfile Hname Hcsv. unfold api_analyze. rewrite Hfile, Hcsv.
  rewrite (proj2 (String.eqb_neq _ _) Hname). cbn [negb].
  pose proof (file_save_verifier st file
                ("temp_upload_" +:+ now_timestamp env +:+ ".csv")
                (Py.path_join "data"
                   ("temp_upload_" +:+ now_timestamp env +:+ ".csv"))) as Hv.
  destruct (file_save env st file _ _) as [[e st0] | st0]; [exact Hv |].
  destruct (get_verifier_cache_only st st0 Hv) as (_ & <- & _).
  destruct (get_verifier env st0) as [[v |] st1]; [| reflexivity].
  destruct (verify_keystroke_file v _ (upload_content file)) as [e | result];
    [reflexivity |].
  destruct (truthy result); cbn [snd]; apply upload_removed_verifier.
Qed.

(** An upload whose name fails a check changes nothing. *)
Lemma api_analyze_refused_state (st : State) (files : gmap string Upload) :
  status_code (api_analyze env st files).1 = 400 ->
  (api_analyze env st files).2 = st.
Proof.
  unfold api_analyze. destruct (files !! "file") as [file |]; [| reflexivity].
  destruct (String.eqb (upload_filename file) ""); [reflexivity |].
  destruct (negb (Py.endswith ".csv" (upload_filename file))); [reflexivity |].
  destruct (file_save env st file _ _) as [[e st0] | st0];
    [intros H; vm_compute in H; discriminate |].
  destruct (get_verifier env st0) as [[v |] st1];
    [| intros H; vm_compute in H; discriminate].
  destruct (verify_keystroke_file v _ (upload_content file)) as [e | result];
    [intros H; vm_compute in H; discriminate |].
  destruct (truthy result); intros H; vm_compute in H; discriminate.
Qed.

(** When [api_analyze] answers 200. *)
Lemma api_analyze_200 (st : State) (files : gmap string Upload) :
  status_code (api_analyze env st files).1 = 200 <->
  exists file v result,
    files !! "file" = Some file
    /\ upload_filename file <> ""
    /\ Py.endswith ".csv" (upload_filename file) = true
    /\ (uploads_in_data_dir env = true -> is_Some (dir st))
    /\ save_upload env file
         (Py.path_join "data" ("temp_upload_" +:+ now_timestamp env +:+ ".csv"))
       = None
    /\ (get_verifier env st).1 = Some v
    /\ verify_keystroke_file v
         (Py.path_join "data" ("temp_upload_" +:+ now_timestamp env +:+ ".csv"))
         (upload_content file) = inr result
    /\ truthy result = true
    /\ body (api_analyze env st files).1
       = dict [("status", JStr "success"); ("result", result)].
Proof.
  split.
  - intros H200.
    destruct (files !! "file") as [file |] eqn:Hfile; last first.
    { exfalso. revert H200. unfold api_analyze. rewrite Hfile. discriminate. }
    destruct (String.eqb (upload_filename file) "") eqn:Hname.
    { exfalso. revert H200. unfold api_analyze. rewrite Hfile, Hname.
      discriminate. }
    destruct (Py.endswith ".csv" (upload_filename file)) eqn:Hcsv; last first.
    { exfalso. revert H200. unfold api_analyze. rewrite Hfile, Hname, Hcsv.
      discriminate. }
    apply String.eqb_neq in Hname.
    rewrite (api_analyze_run st files file Hfile Hname Hcsv) in H200 |- *.
    unfold file_save in *.
    destruct (uploads_in_data_dir env && negb (bool_decide (is_Some (dir st))))
      eqn:Halias; [discriminate |].
    destruct (save_upload env file _) as [e |] eqn:Hsave; [discriminate |].
    destruct (get_verifier env st).1 as [v |] eqn:Hget; [| discriminate].
    destruct (verify_keystroke_file v _ (upload_content file))
      as [e | result] eqn:Hverify; [discriminate |].
    destruct (truthy result) eqn:Htruthy; [| discriminate].
    exists file, v, result. split_and!; try reflexivity; try assumption.
    intros Hin. rewrite Hin in Halias. cbn [andb] in Halias.
    apply negb_false_iff in Halias. by apply bool_decide_eq_true in Halias.
  - intros (file & v & result & Hfile & Hname & Hcsv & Hdir & Hsave & Hget
            & Hverify & Htruthy & _).
    rewrite (api_analyze_run st files file Hfile Hname Hcsv).
    unfold file_save. rewrite Hsave.
    destruct (uploads_in_data_dir env) eqn:Hin; cbn [andb].
    + rewrite (bool_decide_eq_true_2 _ (Hdir eq_refl)). cbn [negb].
      rewrite Hget, Hverify, Htruthy. reflexivity.
    + rewrite Hget, Hverify, Htruthy. reflexivity.
Qed.

(** The data directory after an upload that was saved into it. *)
Lemma api_analyze_run_dir
    (st : State) (files : gmap string Upload) (file : Upload) (l : list string) :
  files !! "file" = Some file ->
  upload_filename file <> "" ->
  Py.endswith ".csv" (upload_filename file) = true ->
  uploads_in_data_dir env = true ->
  dir st = Some l ->
  save_upload env file
    (Py.path_join "data" ("temp_upload_" +:+ now_timestamp env +:+ ".csv"))
  = None ->
  dir (api_analyze env st files).2 =
    match (get_verifier env st).1 with
    | None => dir_write ("temp_upload_" +:+ now_timestamp env +:+ ".csv") (Some l)
    | Some v =>
        match verify_keystroke_file v
                (Py.path_join "data"
                   ("temp_upload_" +:+ now_timestamp env +:+ ".csv"))
                (upload_content file) with
        | inl _ =>
            dir_write ("temp_upload_" +:+ now_timestamp env +:+ ".csv") (Some l)
        | inr _ =>
            dir_remove ("temp_upload_" +:+ now_timestamp env +:+ ".csv")
              (dir_write ("temp_upload_" +:+ now_timestamp env +:+ ".csv")
                 (Some l))
        end
    end.
Proof.
  intros Hfile Hname Hcsv Hin Hdir Hsave. unfold api_analyze.
  rewrite Hfile, Hcsv, (proj2 (String.eqb_neq _ _) Hname). cbn [negb].
  unfold file_save. rewrite Hin, Hdir, Hsave.
  rewrite (bool_decide_eq_true_2 (is_Some (Some l))) by (by exists l).
  cbn [andb negb]. unfold upload_written. rewrite Hin, Hdir.
  set (st0 := {| dir := dir_write _ (Some l); verifier := verifier st |}).
  destruct (get_verifier_cache_only st st0 eq_refl) as (<- & _ & Hd).
  destruct (get_verifier env st0) as [[v |] st1]; cbn [fst snd] in *;
    [| exact Hd].
  destruct (verify_keystroke_file v _ (upload_content file)) as [e | result];
    [exact Hd |].
  unfold upload_removed. rewrite Hin, Hd.
  by destruct (truthy result).
Qed.

End AnalyzeAnswers.

(** [api_analyze] answers a well-named upload with what the verifier returns,
    and never with the client error 400. *)
Lemma api_analyze_well_named
    (env : Env) (st : State) (files : gmap string Upload) (file : Upload) :
  files !! "file" = Some file ->
  upload_filename file <> "" ->
  Py.endswith ".csv" (upload_filename file) = true ->
  status_code (api_analyze env st files).1 <> 400
  /\ (status_code (api_analyze env st files).1 = 200 ->
        exists v path result,
          (get_verifier env st).1 = Some v
          /\ verify_keystroke_file v path (upload_content file) = inr result
          /\ result_of (api_analyze env st files).1 = Some result).
Proof.
  intros Hfile Hname Hcsv. rewrite (api_analyze_run env st files file Hfile Hname Hcsv).
  destruct (file_save env st file _ _) as [[e st0] | st0]; [by split |].
  destruct (get_verifier env st).1 as [v |]; [| by split].
  destruct (verify_keystroke_file v _ (upload_content file))
    as [e | result] eqn:Hverify; [by split |].
  destruct (truthy result); [| by split].
  split; [done |]. intros _.
  eexists v, _, result. split_and!; [reflexivity | exact Hverify | reflexivity].
Qed.

(** ** The fused decision *)

Section FusedDecision.

Context (c a : Q) (votes : list Fusion.Vote) (r : Fusion.VerificationResult).
Hypothesis Hfuse : Fusion.fuse c a votes = Some r.

(** What [fuse] reports does not depend on the thresholds. *)
Lemma fuse_measures :
  Fusion.confidence r = Fusion.fused_confidence votes
  /\ Fusion.model_agreement r = Fusion.fused_agreement votes
  /\ Fusion.ensemble_decision r
     = (if Fusion.majority_verdict votes then "Legitimate" else "Impostor")
  /\ votes <> [].
Proof using Hfuse.
  unfold Fusion.fuse in Hfuse. destruct votes as [| v vs]; [discriminate |].
  injection Hfuse as <-. by split_and!.
Qed.

(** The decision is AUTHENTICATED exactly when both thresholds are reached. *)
Lemma fuse_authenticated :
  Fusion.final_decision r = Fusion.AUTHENTICATED <->
  (c <= Fusion.fused_confidence votes)%Q /\ (a <= Fusion.fused_agreement votes)%Q.
Proof using Hfuse.
  unfold Fusion.fuse in Hfuse. destruct votes as [| v vs]; [discriminate |].
  injection Hfuse as <-. cbn [Fusion.final_decision].
  rewrite <- !Qle_bool_iff.
  destruct (Qle_bool c _), (Qle_bool a _); cbn [andb];
    split; try discriminate; try (intros [? ?]; discriminate); done.
Qed.

(** It is REJECTED otherwise, and [is_authentic] mirrors it. *)
Lemma fuse_rejected :
  Fusion.final_decision r = Fusion.REJECTED <->
  ~ ((c <= Fusion.fused_confidence votes)%Q
     /\ (a <= Fusion.fused_agreement votes)%Q).
Proof using Hfuse.
  rewrite <- fuse_authenticated.
  destruct (Fusion.final_decision r); split; congruence.
Qed.

Lemma fuse_is_authentic :
  Fusion.is_authentic r = true <->
  Fusion.final_decision r = Fusion.AUTHENTICATED.
Proof using Hfuse.
  unfold Fusion.fuse in Hfuse. destruct votes as [| v vs]; [discriminate |].
  injection Hfuse as <-. cbn [Fusion.final_decision Fusion.is_authentic].
  by destruct (_ && _).
Qed.

End FusedDecision.

(** [fuse] fails on no votes only, whatever the thresholds. *)
Lemma fuse_total (c a : Q) (votes : list Fusion.Vote) :
  votes <> [] -> exists r, Fusion.fuse c a votes = Some r.
Proof.
  unfold Fusion.fuse. destruct votes as [| v vs]; [done |]. by eexists.
Qed.

(** ** The claims *)

(** C1. With [CONFIDENCE_THRESHOLD = 90] the answer to three well-formed
    events reports confidence 85.0, below the threshold, and still decides
    "AUTHENTICATED": the decision of [api_verify] is the placeholder, it is not
    computed from the confidence, the agreement and the thresholds. *)
Theorem api_verify_decision_ignores_thresholds :
  final_decision
    (api_verify demo_cfg demo_env demo_state (request_of three_events)).1
  = Some (JStr "AUTHENTICATED")
  /\ verification_result
       (api_verify demo_cfg demo_env demo_state (request_of three_events)).1
     ≫= field "confidence" = Some (JFloat 85)
  /\ verification_result
       (api_verify demo_cfg demo_env demo_state (request_of three_events)).1
     ≫= field "model_agreement" = Some (JFloat 95)
  /\ ~ (CONFIDENCE_THRESHOLD demo_cfg <= 85)%Q.
Proof.
  repeat split; try reflexivity.
  intros Hle. vm_compute in Hle. by apply Hle.
Qed.

(** C2. Two requests that both pass the minimum-keystroke check and reach the
    verification step get the same authentication result, the fixed one:
    authentic, confidence 85.0, "Legitimate", agreement 95.0, "AUTHENTICATED".
    The keystrokes, the environment and the state play no part in it. *)
Theorem api_verify_decision_fixed
    (cfg : Config) (env1 env2 : Env) (st1 st2 : State)
    (request1 request2 : exn + json) (ks1 ks2 : json) (n1 n2 : Z)
    (features1 features2 : gmap string json) :
  reaches_verification cfg env1 st1 request1 ks1 n1 features1 ->
  reaches_verification cfg env2 st2 request2 ks2 n2 features2 ->
  verification_result (api_verify cfg env1 st1 request1).1
  = verification_result (api_verify cfg env2 st2 request2).1
  /\ verification_result (api_verify cfg env1 st1 request1).1
     = Some (dict [("is_authentic", JBool true);
                   ("confidence", JFloat 85);
                   ("ensemble_decision", JStr "Legitimate");
                   ("model_agreement", JFloat 95);
                   ("final_decision", JStr "AUTHENTICATED")]).
Proof.
  intros H1 H2.
  rewrite (api_verify_success _ _ _ _ _ _ _ H1).
  rewrite (api_verify_success _ _ _ _ _ _ _ H2).
  done.
Qed.

Lemma api_verify_decision_fixed_witness :
  verification_result
    (api_verify demo_cfg demo_env demo_state (request_of three_events)).1
  = verification_result
      (api_verify demo_cfg demo_env demo_state (request_of backwards_events)).1.
Proof.
  refine (proj1 _).
  apply (api_verify_decision_fixed demo_cfg demo_env demo_env
           demo_state demo_state (request_of three_events)
           (request_of backwards_events) (JArr three_events)
           (JArr backwards_events) 3 3 three_features three_features).
  - apply (demo_reaches_verification three_events). vm_compute. discriminate.
  - apply (demo_reaches_verification backwards_events). vm_compute. discriminate.
Defined.

(** C3. A request whose ['keystrokes'] entry is a sequence of fewer than
    [MIN_KEYSTROKES] events is answered with the client error 400 "Insufficient
    keystrokes", whatever the environment and the state; the answer has no
    result, and nothing is saved. *)
Theorem api_verify_insufficient_keystrokes
    (cfg : Config) (env : Env) (st : State)
    (m : gmap string json) (events : list json) :
  m !! "keystrokes" = Some (JArr events) ->
  Z.of_nat (length events) < MIN_KEYSTROKES cfg ->
  api_verify cfg env st (inr (JObj m)) =
    (error_response ("Insufficient keystrokes. Minimum required: "
                       +:+ Py.str (MIN_KEYSTROKES cfg)) 400, st)
  /\ status_code (api_verify cfg env st (inr (JObj m))).1 = 400
  /\ result_of (api_verify cfg env st (inr (JObj m))).1 = None.
Proof.
  intros Hks Hshort.
  assert (api_verify cfg env st (inr (JObj m)) =
    (error_response ("Insufficient keystrokes. Minimum required: "
                       +:+ Py.str (MIN_KEYSTROKES cfg)) 400, st)) as ->.
  { unfold api_verify. cbn [truthy py_in py_getitem]. rewrite Hks.
    rewrite bool_decide_eq_false_2
      by (intros ->; by rewrite lookup_empty in Hks).
    rewrite bool_decide_eq_true_2 by done.
    cbn [negb py_len]. by rewrite (proj2 (Z.ltb_lt _ _)). }
  done.
Qed.

Lemma api_verify_insufficient_keystrokes_witness :
  Z.of_nat (length one_event) < MIN_KEYSTROKES demo_cfg
  /\ status_code
       (api_verify demo_cfg demo_env demo_state (request_of one_event)).1 = 400.
Proof.
  split; [reflexivity |].
  apply (api_verify_insufficient_keystrokes demo_cfg demo_env demo_state
           (list_to_map [("keystrokes", JArr one_event)]) one_event).
  - reflexivity.
  - reflexivity.
Defined.

(** C4. [api_verify] does not look at press and release times.  A sequence
    with an event released before it is pressed is refused only when it is
    shorter than [MIN_KEYSTROKES], and then for its length; otherwise it goes on
    to saving and feature extraction like any other sequence, the answer is
    never the client error 400, and it is the success document as soon as
    extraction returns and a verifier is there. *)
Theorem api_verify_no_timing_check
    (cfg : Config) (env : Env) (st : State) (events : list json)
    (bad : json) :
  bad ∈ events -> malformed_timing bad ->
  (Z.of_nat (length events) < MIN_KEYSTROKES cfg ->
     (api_verify cfg env st (request_of events)).1
     = error_response ("Insufficient keystrokes. Minimum required: "
                         +:+ Py.str (MIN_KEYSTROKES cfg)) 400)
  /\ (MIN_KEYSTROKES cfg <= Z.of_nat (length events) ->
        status_code (api_verify cfg env st (request_of events)).1 <> 400
        /\ forall features,
             extract_comprehensive_features env (JArr events) = inr features ->
             is_Some (get_verifier env st).1 ->
             status_code (api_verify cfg env st (request_of events)).1 = 200
             /\ final_decision (api_verify cfg env st (request_of events)).1
                = Some (JStr "AUTHENTICATED")).
Proof.
  intros _ _.
  pose proof (carries_request_of events) as Hc.
  split.
  - intros Hshort. rewrite (api_verify_carries _ _ _ _ _ _ Hc).
    by rewrite (proj2 (Z.ltb_lt _ _)).
  - intros Hlong. split.
    + rewrite api_verify_400, (refused_carries _ _ _ _ Hc). lia.
    + intros features Hex Hv.
      by rewrite (api_verify_success cfg env st _ (JArr events)
                    (Z.of_nat (length events)) features).
Qed.

Lemma api_verify_no_timing_check_witness :
  status_code
    (api_verify demo_cfg demo_env demo_state (request_of backwards_events)).1
  <> 400.
Proof.
  apply (api_verify_no_timing_check demo_cfg demo_env demo_state
           backwards_events (event "b" 150 100)).
  - right. left.
  - exact backwards_event_malformed.
  - vm_compute. discriminate.
Defined.

(** C4, refuted as stated: a sequence of three events, the second released
    before it is pressed, is not answered with a validation error; under no
    environment and state is the status 400, and with the demo environment the
    request is authenticated. *)
Lemma malformed_timing_not_refused :
  (exists bad, bad ∈ backwards_events /\ malformed_timing bad)
  /\ (forall env st,
        status_code
          (api_verify demo_cfg env st (request_of backwards_events)).1 <> 400)
  /\ status_code
       (api_verify demo_cfg demo_env demo_state (request_of backwards_events)).1
     = 200
  /\ final_decision
       (api_verify demo_cfg demo_env demo_state (request_of backwards_events)).1
     = Some (JStr "AUTHENTICATED").
Proof.
  split_and!; [| | reflexivity | reflexivity].
  - exists (event "b" 150 100).
    split; [right; left | exact backwards_event_malformed].
  - intros env st.
    rewrite api_verify_400,
      (refused_carries _ _ (JArr backwards_events) 3); [done |].
    exact (carries_request_of backwards_events).
Qed.

(** C5. For the decision function of the design document, [Fusion.fuse],
    raising [CONFIDENCE_THRESHOLD] from [c] to [c'] and [AGREEMENT_THRESHOLD]
    from [a] to [a'] on the same votes is monotone: a result that is REJECTED
    under the lower thresholds is REJECTED under the raised ones, a result
    that is AUTHENTICATED under the raised ones is AUTHENTICATED under the
    lower ones, and the confidence, the agreement and the ensemble label are
    the same under both. *)
Theorem fuse_threshold_monotone
    (c c' a a' : Q) (votes : list Fusion.Vote) :
  (c <= c')%Q ->
  (a <= a')%Q ->
  (forall r, Fusion.fuse c a votes = Some r ->
     Fusion.final_decision r = Fusion.REJECTED ->
     exists r', Fusion.fuse c' a' votes = Some r'
                /\ Fusion.final_decision r' = Fusion.REJECTED)
  /\ (forall r', Fusion.fuse c' a' votes = Some r' ->
        Fusion.final_decision r' = Fusion.AUTHENTICATED ->
        exists r, Fusion.fuse c a votes = Some r
                  /\ Fusion.final_decision r = Fusion.AUTHENTICATED)
  /\ (forall r r', Fusion.fuse c a votes = Some r ->
        Fusion.fuse c' a' votes = Some r' ->
        Fusion.confidence r' = Fusion.confidence r
        /\ Fusion.model_agreement r' = Fusion.model_agreement r
        /\ Fusion.ensemble_decision r' = Fusion.ensemble_decision r).
Proof.
  intros Hc Ha. split_and!.
  - intros r Hr Hrejected.
    destruct (fuse_measures c a votes r Hr) as (_ & _ & _ & Hvotes).
    destruct (fuse_total c' a' votes Hvotes) as [r' Hr'].
    exists r'. split; [exact Hr' |].
    apply (fuse_rejected c' a' votes r' Hr').
    apply (fuse_rejected c a votes r Hr) in Hrejected.
    intros [Hconf Hagr]. apply Hrejected. split.
    + exact (Qle_trans _ _ _ Hc Hconf).
    + exact (Qle_trans _ _ _ Ha Hagr).
  - intros r' Hr' Hauth.
    destruct (fuse_measures c' a' votes r' Hr') as (_ & _ & _ & Hvotes).
    destruct (fuse_total c a votes Hvotes) as [r Hr].
    exists r. split; [exact Hr |].
    apply (fuse_authenticated c a votes r Hr).
    apply (fuse_authenticated c' a' votes r' Hr') in Hauth as [Hconf Hagr].
    split.
    + exact (Qle_trans _ _ _ Hc Hconf).
    + exact (Qle_trans _ _ _ Ha Hagr).
  - intros r r' Hr Hr'.
    destruct (fuse_measures c a votes r Hr) as (-> & -> & -> & _).
    destruct (fuse_measures c' a' votes r' Hr') as (-> & -> & -> & _).
    by split_and!.
Qed.

Lemma fuse_threshold_monotone_witness :
  ((70 <= 75)%Q /\ (60 <= 60)%Q)
  /\ (Fusion.final_decision <$> Fusion.fuse 70 60 example_votes)
     = Some Fusion.AUTHENTICATED
  /\ (Fusion.final_decision <$> Fusion.fuse 75 60 example_votes)
     = Some Fusion.REJECTED
  /\ exists r', Fusion.fuse 80 60 example_votes = Some r'
                /\ Fusion.final_decision r' = Fusion.REJECTED.
Proof.
  assert ((70 <= 75)%Q) as H70 by (vm_compute; discriminate).
  assert ((75 <= 80)%Q) as H75 by (vm_compute; discriminate).
  assert ((60 <= 60)%Q) as H60 by (vm_compute; discriminate).
  split_and!; [exact H70 | exact H60 | reflexivity | reflexivity |].
  destruct (fuse_threshold_monotone 75 80 60 60 example_votes H75 H60)
    as (Hrejected & _ & _).
  destruct (Fusion.fuse 75 60 example_votes) as [r |] eqn:Hr; [| discriminate].
  apply (Hrejected r eq_refl). vm_compute in Hr. by injection Hr as <-.
Defined.

(** C6. The answer of [api_verify] is 503 exactly when the request passes
    the input checks, feature extraction returns and no verifier is to be
    had, and it is then "Verification system not available"; it is 400
    exactly when the request is refused by the input checks, which look at
    the configuration and the request only, not at the verifier; so no
    request is classified both ways.  When feature extraction raises, the
    answer is the 500 of the exception handler, verifier or not; and with no
    verifier to be had no request succeeds. *)
Theorem api_verify_unavailable
    (cfg : Config) (env : Env) (st : State) (request : exn + json) :
  (status_code (api_verify cfg env st request).1 = 503 <->
     exists ks n features,
       carries request ks n /\ MIN_KEYSTROKES cfg <= n
       /\ extract_comprehensive_features env ks = inr features
       /\ (get_verifier env st).1 = None)
  /\ (status_code (api_verify cfg env st request).1 = 503 ->
        (api_verify cfg env st request).1
        = error_response "Verification system not available" 503)
  /\ (status_code (api_verify cfg env st request).1 = 400 <->
        refused cfg request)
  /\ ~ (status_code (api_verify cfg env st request).1 = 503
        /\ refused cfg request)
  /\ (forall ks n e,
        carries request ks n -> MIN_KEYSTROKES cfg <= n ->
        extract_comprehensive_features env ks = inl e ->
        (api_verify cfg env st request).1 = verify_failed env e
        /\ status_code (api_verify cfg env st request).1 = 500)
  /\ ((get_verifier env st).1 = None ->
        status_code (api_verify cfg env st request).1 <> 200).
Proof.
  split_and!.
  - apply api_verify_503.
  - intros (ks & n & features & Hc & Hmin & Hex & Hnone)%api_verify_503.
    rewrite (api_verify_carries _ _ _ _ _ _ Hc), Hex, Hnone.
    by rewrite (proj2 (Z.ltb_ge _ _)).
  - apply api_verify_400.
  - intros [H503 Hrefused%(api_verify_400 cfg env st)]. congruence.
  - intros ks n e Hc Hmin Hex.
    rewrite (api_verify_carries _ _ _ _ _ _ Hc), Hex.
    by rewrite (proj2 (Z.ltb_ge _ _)).
  - intros Hnone (ks & n & features & _ & _ & _ & Hsome)%api_verify_200.
    rewrite Hnone in Hsome. by destruct Hsome.
Qed.

Lemma api_verify_unavailable_witness :
  (api_verify demo_cfg offline_env demo_state (request_of three_events)).1
  = error_response "Verification system not available" 503.
Proof.
  destruct (api_verify_unavailable demo_cfg offline_env demo_state
              (request_of three_events)) as (H503 & Hanswer & _).
  apply Hanswer, H503.
  exists (JArr three_events), 3, three_features. split_and!.
  - exact (carries_request_of three_events).
  - reflexivity.
  - reflexivity.
  - reflexivity.
Defined.

(** C6, refuted as stated: with no verifier to be had, a request that passes
    the input checks is not always answered 503.  Three well-formed events
    whose feature extraction raises are answered 500, and so is a
    ["keystrokes"] entry that is a string of six characters, which passes the
    length check and which [pd.DataFrame] then refuses; neither request is
    refused by the input checks, and neither answer is 503 or 400. *)
Lemma unavailable_not_answered_503 :
  ((get_verifier broken_extractor_env demo_state).1 = None
   /\ ~ refused demo_cfg (request_of three_events)
   /\ (api_verify demo_cfg broken_extractor_env demo_state
         (request_of three_events)).1
      = error_response "Verification failed: extraction failed" 500)
  /\ ((get_verifier pandas_env demo_state).1 = None
      /\ ~ refused demo_cfg (inr (dict [("keystrokes", JStr "abcdef")]))
      /\ (api_verify demo_cfg pandas_env demo_state
            (inr (dict [("keystrokes", JStr "abcdef")]))).1
         = error_response
             "Verification failed: DataFrame constructor not properly called!"
             500).
Proof.
  split; split_and!; try reflexivity.
  - rewrite (refused_carries demo_cfg _ (JArr three_events) 3);
      [vm_compute; discriminate | exact (carries_request_of three_events)].
  - rewrite (refused_carries demo_cfg _ (JStr "abcdef") 6);
      [vm_compute; discriminate |].
    exists (list_to_map [("keystrokes", JStr "abcdef")]).
    split_and!; reflexivity.
Qed.

(** C7. A successful answer of [api_verify] has, under ["result"], an
    ["authentication_result"] with exactly the five decision fields and a
    ["typing_statistics"] block with exactly the seven statistics, each one the
    value of its feature in the computed feature vector, unchanged ([0] when the
    vector has no such feature). *)
Theorem api_verify_success_shape
    (cfg : Config) (env : Env) (st : State) (request : exn + json) :
  status_code (api_verify cfg env st request).1 = 200 ->
  exists auth stats ks n features,
    field "status" (body (api_verify cfg env st request).1) = Some (JStr "success")
    /\ verification_result (api_verify cfg env st request).1 = Some auth
    /\ keys auth = {[ "is_authentic"; "confidence"; "ensemble_decision";
                      "model_agreement"; "final_decision" ]}
    /\ statistics_of (api_verify cfg env st request).1 = Some stats
    /\ keys stats = {[ "dwell_time_mean"; "dwell_time_std"; "flight_time_mean";
                       "flight_time_std"; "total_time"; "typing_speed";
                       "dwell_flight_ratio" ]}
    /\ carries request ks n
    /\ extract_comprehensive_features env ks = inr features
    /\ (forall wire feature, (wire, feature) ∈ statistics_fields ->
          field wire stats = Some (default (JInt 0) (features !! feature)))
    /\ (forall wire feature v, (wire, feature) ∈ statistics_fields ->
          features !! feature = Some v -> field wire stats = Some v).
Proof.
  intros H200.
  destruct (api_verify_200 _ _ _ _ H200) as (ks & n & features & Hreach).
  rewrite (api_verify_success _ _ _ _ _ _ _ Hreach).
  destruct Hreach as (Hc & _ & Hex & _).
  assert (forall wire feature, (wire, feature) ∈ statistics_fields ->
            field wire (typing_statistics features)
            = Some (default (JInt 0) (features !! feature))) as Hstats.
  { intros wire feature Hin. unfold statistics_fields in Hin.
    repeat (apply elem_of_cons in Hin as [[= -> ->] | Hin]; [reflexivity |]).
    by apply elem_of_nil in Hin. }
  exists authentication_result, (typing_statistics features), ks, n, features.
  split_and!; [reflexivity | reflexivity | | reflexivity | | done | done | done |].
  - unfold keys, authentication_result, dict. rewrite dom_list_to_map_L.
    cbn [fmap list_fmap fst list_to_set foldr]. set_solver.
  - unfold keys, typing_statistics, dict. rewrite dom_list_to_map_L.
    cbn [fmap list_fmap fst list_to_set foldr]. set_solver.
  - intros wire feature v Hin Hv. by rewrite (Hstats _ _ Hin), Hv.
Qed.

Lemma api_verify_success_shape_witness :
  exists stats,
    statistics_of
      (api_verify demo_cfg demo_env demo_state (request_of three_events)).1
    = Some stats
    /\ keys stats = {[ "dwell_time_mean"; "dwell_time_std"; "flight_time_mean";
                       "flight_time_std"; "total_time"; "typing_speed";
                       "dwell_flight_ratio" ]}.
Proof.
  destruct (api_verify_success_shape demo_cfg demo_env demo_state
              (request_of three_events))
    as (auth & stats & ks & n & features
        & _ & _ & _ & Hstats & Hkeys & _ & _ & _ & _).
  - reflexivity.
  - exists stats. split; [exact Hstats | exact Hkeys].
Defined.

(** C8. The two entry points do not share a path.  For the same three events,
    [api_analyze] answers whatever the loaded verifier returns for them, while
    [api_verify] answers the fixed result without calling it: with a verifier
    that rejects the events the first says "REJECTED" and the second
    "AUTHENTICATED".  And one event where three are required is refused with
    400 by [api_verify] but never by [api_analyze], which has no such check. *)
Theorem entry_points_diverge :
  (forall v result,
      verify_keystroke_file v "data/temp_upload_1714557600.0.csv"
        (JArr three_events) = inr result ->
      truthy result = true ->
      result_of
        (api_analyze (with_verifier demo_env v) demo_state
           (demo_upload three_events)).1 = Some result
      /\ result_of
           (api_verify demo_cfg (with_verifier demo_env v) demo_state
              (request_of three_events)).1
         = Some (verify_result demo_env (Some 3) 3 three_features))
  /\ final_decision
       (api_analyze demo_env demo_state (demo_upload three_events)).1
     = Some (JStr "REJECTED")
  /\ final_decision
       (api_verify demo_cfg demo_env demo_state (request_of three_events)).1
     = Some (JStr "AUTHENTICATED")
  /\ status_code
       (api_verify demo_cfg demo_env demo_state (request_of one_event)).1 = 400
  /\ (forall env st,
        status_code (api_analyze env st (demo_upload one_event)).1 <> 400).
Proof.
  split_and!; [| reflexivity | reflexivity | reflexivity |].
  - intros v result Hverify Htruthy. split.
    + rewrite (api_analyze_run (with_verifier demo_env v) demo_state
                 (demo_upload three_events)
                 {| upload_filename := "session.csv";
                    upload_content := JArr three_events |});
        [| reflexivity | discriminate | reflexivity].
      change (file_save (with_verifier demo_env v) demo_state _ _ _)
        with (@inr (exn * State) State
                (upload_written (with_verifier demo_env v)
                   "temp_upload_1714557600.0.csv" demo_state)).
      cbn [with_verifier demo_env now_timestamp get_verifier demo_state verifier
           load_verifier fst upload_content].
      change (Py.path_join "data" ("temp_upload_" +:+ "1714557600.0" +:+ ".csv"))
        with "data/temp_upload_1714557600.0.csv".
      rewrite Hverify, Htruthy. reflexivity.
    + unfold demo_state.
      rewrite (api_verify_never_calls_verifier demo_cfg demo_env
                 (Some ["sample1.csv"; "sample2.csv"]) (request_of three_events)
                 v rejecting_verifier).
      reflexivity.
  - intros env st.
    by apply (api_analyze_well_named env st (demo_upload one_event)
                {| upload_filename := "session.csv";
                   upload_content := JArr one_event |}).
Qed.

(** C9. When writing the sample fails, a request that would have succeeded
    still succeeds, with the same authentication result, typing statistics,
    keystroke count and time; what changes are the three file-name fields:
    ["saved_as"] and ["saved_file"] are null and ["filename"] is the text
    "realtime_verification", where a saved sample numbered [k], [k] not zero,
    puts the sample's name in all three. *)
Theorem api_verify_save_failure
    (cfg : Config) (env : Env) (st : State) (request : exn + json) :
  status_code (api_verify cfg env st request).1 = 200 ->
  status_code (api_verify cfg (failing_disk env) st request).1 = 200
  /\ verification_result (api_verify cfg (failing_disk env) st request).1
     = verification_result (api_verify cfg env st request).1
  /\ statistics_of (api_verify cfg (failing_disk env) st request).1
     = statistics_of (api_verify cfg env st request).1
  /\ file_info_of (api_verify cfg (failing_disk env) st request).1
       ≫= field "keystroke_count"
     = file_info_of (api_verify cfg env st request).1 ≫= field "keystroke_count"
  /\ file_info_of (api_verify cfg (failing_disk env) st request).1
       ≫= field "verification_time"
     = file_info_of (api_verify cfg env st request).1 ≫= field "verification_time"
  /\ file_info_of (api_verify cfg (failing_disk env) st request).1
       ≫= field "filename" = Some (JStr "realtime_verification")
  /\ file_info_of (api_verify cfg (failing_disk env) st request).1
       ≫= field "saved_as" = Some JNull
  /\ field "saved_file" (body (api_verify cfg (failing_disk env) st request).1)
     = Some JNull
  /\ (forall ks n path k,
        carries request ks n ->
        (save_keystroke_data cfg env st ks).1 = Some (path, k) -> k <> 0 ->
        file_info_of (api_verify cfg env st request).1 ≫= field "filename"
        = Some (JStr (sample_filename k))
        /\ file_info_of (api_verify cfg env st request).1 ≫= field "saved_as"
           = Some (JStr (sample_filename k))
        /\ field "saved_file" (body (api_verify cfg env st request).1)
           = Some (JStr (sample_filename k))).
Proof.
  intros (ks & n & features & Hreach)%api_verify_200.
  assert (reaches_verification cfg (failing_disk env) st request ks n features)
    as Hreach' by exact Hreach.
  rewrite (api_verify_success _ _ _ _ _ _ _ Hreach).
  rewrite (api_verify_success _ _ _ _ _ _ _ Hreach').
  assert ((save_keystroke_data cfg (failing_disk env) st ks).1 = None) as ->.
  { unfold save_keystroke_data.
    by destruct (get_next_sample_number (dir st)). }
  split_and!; try reflexivity.
  intros ks' n' path k Hc Hsaved Hk.
  destruct Hreach as (Hc0 & _).
  destruct (carries_functional _ _ _ _ _ Hc0 Hc) as [<- <-].
  rewrite Hsaved. unfold verify_success, verify_result, sample_label.
  cbn [fmap option_fmap option_map snd].
  rewrite (proj2 (Z.eqb_neq k 0) Hk). by split_and!.
Qed.

Lemma api_verify_save_failure_witness :
  field "saved_file"
    (body (api_verify demo_cfg (failing_disk demo_env) demo_state
             (request_of three_events)).1) = Some JNull
  /\ field "saved_file"
       (body (api_verify demo_cfg demo_env demo_state
                (request_of three_events)).1) = Some (JStr "sample3.csv").
Proof.
  destruct (api_verify_save_failure demo_cfg demo_env demo_state
              (request_of three_events))
    as (_ & _ & _ & _ & _ & _ & _ & Hnull & Hnamed).
  - reflexivity.
  - split; [exact Hnull |].
    apply (Hnamed (JArr three_events) 3 "data/sample3.csv" 3).
    + exact (carries_request_of three_events).
    + reflexivity.
    + discriminate.
Defined.

(** C9, refuted as stated: when writing the sample fails, ["filename"] is not
    null but "realtime_verification", and a field other than ["filename"] and
    ["saved_file"], namely ["saved_as"], differs as well. *)
Lemma save_failure_filename_not_null :
  file_info_of
    (api_verify demo_cfg (failing_disk demo_env) demo_state
       (request_of three_events)).1 ≫= field "filename"
  = Some (JStr "realtime_verification")
  /\ file_info_of
       (api_verify demo_cfg (failing_disk demo_env) demo_state
          (request_of three_events)).1 ≫= field "saved_as"
     = Some JNull
  /\ file_info_of
       (api_verify demo_cfg demo_env demo_state
          (request_of three_events)).1 ≫= field "saved_as"
     = Some (JStr "sample3.csv").
Proof. split_and!; reflexivity. Qed.

(** C10. [get_next_sample_number] returns [1] when the loop collects no
    number; otherwise it returns one more than the greatest number collected.
    The result is positive exactly when nothing is collected or some collected
    number is not negative.  A name is read by removing every "sample" and
    ".csv" from it and passing the rest to [int]; the names [int] rejects are
    skipped, and the name written for sample [k] is read back as [k]. *)
Theorem get_next_sample_number_spec (d : data_dir) :
  ((forall k, ~ counted d k) -> (get_next_sample_number d).1 = 1)
  /\ (forall k, counted d k ->
        counted d ((get_next_sample_number d).1 - 1)
        /\ k <= (get_next_sample_number d).1 - 1)
  /\ (0 < (get_next_sample_number d).1 <->
        (forall k, ~ counted d k) \/ exists k, counted d k /\ 0 <= k)
  /\ (forall k, sample_filename k ∈ default [] d -> counted d k)
  /\ (forall f, f ∈ default [] d -> sample_number_of f = None ->
        (get_next_sample_number d).1
        = (get_next_sample_number (filter (fun g => g <> f) <$> d)).1).
Proof.
  pose proof (get_next_sample_number_cases d) as Hcases.
  split_and!.
  - intros Hnone. destruct Hcases as [[_ H1] | [Hc _]]; [done |].
    by destruct (Hnone _ Hc).
  - intros k Hk. destruct Hcases as [[Hnone _] | [Hc Hmax]]; [| by auto].
    by destruct (Hnone _ Hk).
  - split.
    + intros Hpos. destruct Hcases as [[Hnone _] | [Hc _]]; [by left |].
      right. eexists. split; [exact Hc | lia].
    + intros [Hnone | (k & Hk & Hk0)];
        destruct Hcases as [[Hnone' H1] | [Hc Hmax]].
      * lia.
      * by destruct (Hnone _ Hc).
      * by destruct (Hnone' _ Hk).
      * apply Hmax in Hk. lia.
  - intros k Hin. exists (sample_filename k).
    auto using is_sample_file_sample_filename, sample_number_of_sample_filename.
  - intros f Hin Hf.
    assert (forall k, counted d k <->
              counted (filter (fun g => g <> f) <$> d) k) as Hsame.
    { intros k. unfold counted.
      assert (default [] (filter (fun g => g <> f) <$> d)
              = filter (fun g => g <> f) (default [] d)) as ->
        by (by destruct d).
      split.
      - intros (g & Hg & Hs & Hk). exists g. split_and!; [| done | done].
        apply list_elem_of_filter. split; [congruence | done].
      - intros (g & [_ Hg]%list_elem_of_filter & Hs & Hk). by exists g. }
    destruct Hcases as [[Hnone H1] | [Hc Hmax]];
      destruct (get_next_sample_number_cases (filter (fun g => g <> f) <$> d))
        as [[Hnone' H1'] | [Hc' Hmax']].
    + congruence.
    + apply Hsame in Hc'. by destruct (Hnone _ Hc').
    + apply Hsame in Hc. by destruct (Hnone' _ Hc).
    + apply Hsame in Hc'. apply Hmax in Hc'.
      apply Hsame in Hc. apply Hmax' in Hc. lia.
Qed.

(** C10, refuted as stated: with the single file [sample-5.csv] the result is
    [-4], not a positive integer; and [samplesample7.csv], whose middle part
    [sample7] is not an integer, is not ignored but counted as [7]. *)
Lemma get_next_sample_number_not_positive :
  (get_next_sample_number (Some ["sample-5.csv"])).1 = -4
  /\ ~ 0 < (get_next_sample_number (Some ["sample-5.csv"])).1
  /\ Py.int "sample7" = None
  /\ (get_next_sample_number (Some ["samplesample7.csv"])).1 = 8.
Proof. split_and!; [reflexivity | | reflexivity | reflexivity]. vm_compute. discriminate. Qed.

(** * Further properties of the module *)

(** ** Sample numbering *)

Section Numbering.

(** The result depends on the collected numbers only. *)
Lemma get_next_sample_number_ext (d d' : data_dir) :
  (forall k, counted d k <-> counted d' k) ->
  (get_next_sample_number d).1 = (get_next_sample_number d').1.
Proof.
  intros Hsame.
  destruct (get_next_sample_number_cases d) as [[Hnone H1] | [Hc Hmax]];
    destruct (get_next_sample_number_cases d') as [[Hnone' H1'] | [Hc' Hmax']].
  - congruence.
  - apply Hsame in Hc'. by destruct (Hnone _ Hc').
  - apply Hsame in Hc. by destruct (Hnone' _ Hc).
  - apply Hsame in Hc'. apply Hmax in Hc'.
    apply Hsame in Hc. apply Hmax' in Hc. lia.
Qed.

Lemma counted_names (l l' : list string) :
  (forall f, is_sample_file f = true -> f ∈ l <-> f ∈ l') ->
  forall k, counted (Some l) k <-> counted (Some l') k.
Proof.
  intros Hsame k. unfold counted. cbn [default from_option id].
  split; intros (f & Hf & Hs & Hk); exists f; split_and!; try done;
    by apply (Hsame f Hs).
Qed.

(** What a successful save does to the directory. *)
Lemma save_keystroke_data_success cfg env st ks path k :
  (save_keystroke_data cfg env st ks).1 = Some (path, k) ->
  k = (get_next_sample_number (dir st)).1
  /\ path = Py.path_join (DATA_DIR cfg) (sample_filename k)
  /\ dir (save_keystroke_data cfg env st ks).2
     = Some (default [] (dir st) ++ [sample_filename k])%list.
Proof.
  unfold save_keystroke_data.
  pose proof (get_next_sample_number_fresh (dir st)) as Hfresh.
  pose proof (get_next_sample_number_dir (dir st)) as Hdir.
  destruct (get_next_sample_number (dir st)) as [k0 d]. cbn [fst snd] in *.
  destruct (to_csv env ks _); [| discriminate].
  cbn [fst snd dir]. intros [= <- <-]. split_and!; [done | done |].
  subst d. unfold dir_write. cbn [default from_option id].
  by rewrite bool_decide_eq_false_2.
Qed.

(** Once the file of the next number is in the directory, the next number is
    one more. *)
Lemma get_next_sample_number_after_write (d : data_dir) :
  (get_next_sample_number
     (Some (default [] d
            ++ [sample_filename (get_next_sample_number d).1])%list)).1
  = (get_next_sample_number d).1 + 1.
Proof.
  set (k := (get_next_sample_number d).1).
  assert (forall j, counted (Some (default [] d ++ [sample_filename k])%list) j
                    <-> counted d j \/ j = k) as Hcounted.
  { intros j. unfold counted. cbn [default from_option id]. split.
    - intros (f & [Hf | ->%list_elem_of_singleton]%elem_of_app & Hs & Hj).
      + left. by exists f.
      + right. rewrite sample_number_of_sample_filename in Hj. congruence.
    - intros [(f & Hf & Hs & Hj) | ->].
      + exists f. split_and!; [| done | done]. apply elem_of_app. by left.
      + exists (sample_filename k). split_and!.
        * apply elem_of_app. right. by apply list_elem_of_singleton.
        * apply is_sample_file_sample_filename.
        * apply sample_number_of_sample_filename. }
  destruct (get_next_sample_number_cases
              (Some (default [] d ++ [sample_filename k])%list))
    as [[Hnone _] | [Hc Hmax]].
  { destruct (Hnone k). apply Hcounted. by right. }
  assert (k <= (get_next_sample_number
                  (Some (default [] d ++ [sample_filename k])%list)).1 - 1)
    as Hge by (apply Hmax, Hcounted; by right).
  apply Hcounted in Hc as [Hold | Heq]; [| lia].
  destruct (get_next_sample_number_cases d) as [[Hnone _] | [_ Hmax0]].
  - by destruct (Hnone _ Hold).
  - apply Hmax0 in Hold. fold k in Hold. lia.
Qed.

(** What a failed save does to the directory. *)
Lemma save_keystroke_data_failure cfg env st ks :
  (save_keystroke_data cfg env st ks).1 = None ->
  to_csv env ks
    (Py.path_join (DATA_DIR cfg)
       (sample_filename (get_next_sample_number (dir st)).1)) = false
  /\ dir (save_keystroke_data cfg env st ks).2
     = if to_csv_leaves_file env ks
            (Py.path_join (DATA_DIR cfg)
               (sample_filename (get_next_sample_number (dir st)).1))
       then Some (default [] (dir st)
                  ++ [sample_filename (get_next_sample_number (dir st)).1])%list
       else Some (default [] (dir st)).
Proof.
  unfold save_keystroke_data.
  pose proof (get_next_sample_number_fresh (dir st)) as Hfresh.
  pose proof (get_next_sample_number_dir (dir st)) as Hdir.
  destruct (get_next_sample_number (dir st)) as [k0 d]. cbn [fst snd] in *.
  destruct (to_csv env ks _); [discriminate |].
  intros _. split; [reflexivity |]. cbn [snd dir].
  destruct (to_csv_leaves_file env ks _); [| exact Hdir].
  subst d. unfold dir_write. cbn [default from_option id].
  by rewrite bool_decide_eq_false_2.
Qed.

End Numbering.

(** X1. The name written for sample [k] and the number read from a name are
    inverse to each other: for every integer [k], negative ones included,
    [f'sample{k}.csv'] passes the filter of [get_next_sample_number] and is
    read back as [k]; so two different numbers never share a file name. *)
Theorem sample_filename_round_trip (k : Z) :
  is_sample_file (sample_filename k) = true
  /\ sample_number_of (sample_filename k) = Some k
  /\ forall k', sample_filename k = sample_filename k' -> k = k'.
Proof.
  split_and!.
  - apply is_sample_file_sample_filename.
  - apply sample_number_of_sample_filename.
  - intros k' Heq.
    pose proof (sample_number_of_sample_filename k) as Hk.
    rewrite Heq, sample_number_of_sample_filename in Hk. congruence.
Qed.

(** X2. A successful save never overwrites: the file it writes has the name
    of the next sample number, that name was not in the directory before, and
    afterwards the directory holds the earlier names and this one. *)
Theorem save_keystroke_data_never_overwrites
    (cfg : Config) (env : Env) (st : State) (ks : json) (path : string) (k : Z) :
  (save_keystroke_data cfg env st ks).1 = Some (path, k) ->
  path = Py.path_join (DATA_DIR cfg) (sample_filename k)
  /\ (sample_filename k ∉ default [] (dir st))
  /\ (forall f, f ∈ default [] (dir (save_keystroke_data cfg env st ks).2)
                <-> (f ∈ default [] (dir st) \/ f = sample_filename k)).
Proof.
  intros (-> & -> & Hdir)%save_keystroke_data_success.
  split_and!; [done | apply get_next_sample_number_fresh |].
  intros f. rewrite Hdir. cbn [default from_option id].
  rewrite elem_of_app, list_elem_of_singleton. done.
Qed.

Lemma save_keystroke_data_never_overwrites_witness :
  "sample3.csv" ∉ default [] (dir demo_state).
Proof.
  destruct (save_keystroke_data_never_overwrites demo_cfg demo_env demo_state
              (JArr three_events) "data/sample3.csv" 3) as (_ & Hfresh & _).
  - reflexivity.
  - exact Hfresh.
Defined.

(** X3. Samples are numbered consecutively: after a save that wrote sample
    [k], the next number is [k + 1], so the next successful save, of any
    keystrokes in any environment, writes sample [k + 1]. *)
Theorem save_keystroke_data_consecutive
    (cfg : Config) (env : Env) (st : State) (ks : json) (path : string) (k : Z) :
  (save_keystroke_data cfg env st ks).1 = Some (path, k) ->
  (get_next_sample_number (dir (save_keystroke_data cfg env st ks).2)).1 = k + 1
  /\ forall env' ks' path' k',
       (save_keystroke_data cfg env' (save_keystroke_data cfg env st ks).2 ks').1
       = Some (path', k') ->
       k' = k + 1.
Proof.
  intros Hsave.
  destruct (save_keystroke_data_success _ _ _ _ _ _ Hsave) as (Hk & _ & Hdir).
  assert ((get_next_sample_number
             (dir (save_keystroke_data cfg env st ks).2)).1 = k + 1) as Hnext.
  { rewrite Hdir, Hk. apply get_next_sample_number_after_write. }
  split; [done |].
  intros env' ks' path' k' (-> & _)%save_keystroke_data_success. done.
Qed.

Lemma save_keystroke_data_consecutive_witness :
  (get_next_sample_number
     (dir (save_keystroke_data demo_cfg demo_env demo_state (JArr three_events)).2)).1
  = 4.
Proof.
  destruct (save_keystroke_data_consecutive demo_cfg demo_env demo_state
              (JArr three_events) "data/sample3.csv" 3) as (Hnext & _).
  - reflexivity.
  - exact Hnext.
Defined.

(** X4. A save that fails returns no name and no number, and what it does to
    the numbering depends on how the write failed.  When the write left no
    file, the directory holds the names it held (it is created when it was
    missing) and the next sample number is what it was.  When the write left
    the file behind, empty or partial, that file takes the number: the
    directory holds one name more and the next sample number is one more, so
    the number of the failed save is skipped by the next one. *)
Theorem save_keystroke_data_failure_effect
    (cfg : Config) (env : Env) (st : State) (ks : json) :
  (save_keystroke_data cfg env st ks).1 = None ->
  to_csv env ks
    (Py.path_join (DATA_DIR cfg)
       (sample_filename (get_next_sample_number (dir st)).1)) = false
  /\ (to_csv_leaves_file env ks
        (Py.path_join (DATA_DIR cfg)
           (sample_filename (get_next_sample_number (dir st)).1)) = false ->
      dir (save_keystroke_data cfg env st ks).2 = Some (default [] (dir st))
      /\ (get_next_sample_number (dir (save_keystroke_data cfg env st ks).2)).1
         = (get_next_sample_number (dir st)).1)
  /\ (to_csv_leaves_file env ks
        (Py.path_join (DATA_DIR cfg)
           (sample_filename (get_next_sample_number (dir st)).1)) = true ->
      dir (save_keystroke_data cfg env st ks).2
      = Some (default [] (dir st)
              ++ [sample_filename (get_next_sample_number (dir st)).1])%list
      /\ (get_next_sample_number (dir (save_keystroke_data cfg env st ks).2)).1
         = (get_next_sample_number (dir st)).1 + 1).
Proof.
  intros (Hcsv & Hdir)%save_keystroke_data_failure.
  split_and!; [exact Hcsv | |]; intros Hleft; rewrite Hleft in Hdir;
    (split; [exact Hdir |]); rewrite Hdir.
  - apply get_next_sample_number_ext.
    intros k. unfold counted. by cbn [default from_option id].
  - apply get_next_sample_number_after_write.
Qed.

Lemma save_keystroke_data_failure_effect_witness :
  (get_next_sample_number (dir demo_state)).1 = 3
  /\ dir (save_keystroke_data demo_cfg (truncating_disk demo_env) demo_state
            (JArr three_events)).2
     = Some ["sample1.csv"; "sample2.csv"; "sample3.csv"]
  /\ (get_next_sample_number
        (dir (save_keystroke_data demo_cfg (truncating_disk demo_env) demo_state
                (JArr three_events)).2)).1 = 4
  /\ (get_next_sample_number
        (dir (save_keystroke_data demo_cfg (failing_disk demo_env) demo_state
                (JArr three_events)).2)).1 = 3.
Proof.
  destruct (save_keystroke_data_failure_effect demo_cfg
              (truncating_disk demo_env) demo_state (JArr three_events))
    as (_ & _ & Hleft); [reflexivity |].
  destruct (Hleft eq_refl) as [Hdir Hnext].
  destruct (save_keystroke_data_failure_effect demo_cfg
              (failing_disk demo_env) demo_state (JArr three_events))
    as (_ & Hnone & _); [reflexivity |].
  destruct (Hnone eq_refl) as [_ Hsame].
  split_and!; [reflexivity | exact Hdir | exact Hnext | exact Hsame].
Defined.

(** X5. The next sample number does not depend on the order in which
    [os.listdir] returns the names, nor on repetitions: two listings with the
    same names give the same number. *)
Theorem get_next_sample_number_order (l l' : list string) :
  (forall f, f ∈ l <-> f ∈ l') ->
  (get_next_sample_number (Some l)).1 = (get_next_sample_number (Some l')).1.
Proof.
  intros Hsame. apply get_next_sample_number_ext, counted_names.
  intros f _. apply Hsame.
Qed.

Lemma get_next_sample_number_order_witness :
  (get_next_sample_number (Some ["sample2.csv"; "sample10.csv"])).1
  = (get_next_sample_number (Some ["sample10.csv"; "sample2.csv"])).1.
Proof.
  apply (get_next_sample_number_order ["sample2.csv"; "sample10.csv"]
           ["sample10.csv"; "sample2.csv"]).
  intros f. rewrite !elem_of_cons. tauto.
Defined.

(** X6. Files that are not samples do not disturb the numbering: a name that
    does not start with "sample" or does not end with ".csv" can be added to
    the directory without changing the next sample number.  The temporary
    files of [api_analyze], [temp_upload_<timestamp>.csv], are such names. *)
Theorem get_next_sample_number_ignores_other_files (l : list string) (f : string) :
  is_sample_file f = false ->
  (get_next_sample_number (Some (f :: l))).1 = (get_next_sample_number (Some l)).1
  /\ forall timestamp, is_sample_file ("temp_upload_" +:+ timestamp +:+ ".csv") = false.
Proof.
  intros Hf. split.
  - apply get_next_sample_number_ext, counted_names.
    intros g Hg. rewrite elem_of_cons. split; [| by right].
    intros [-> | Hin]; [congruence | done].
  - intros timestamp. unfold is_sample_file, Py.startswith.
    change ("temp_upload_" +:+ timestamp +:+ ".csv")
      with (String "t" ("emp_upload_" +:+ timestamp +:+ ".csv")).
    by rewrite prefix_head_ne.
Qed.

Lemma get_next_sample_number_ignores_other_files_witness :
  (get_next_sample_number (Some ["temp_upload_1714557600.0.csv"; "sample7.csv"])).1
  = (get_next_sample_number (Some ["sample7.csv"])).1.
Proof.
  apply (get_next_sample_number_ignores_other_files ["sample7.csv"]
           "temp_upload_1714557600.0.csv").
  reflexivity.
Defined.

(** ** The state the handlers leave behind *)

Section HandlerState.

Context (cfg : Config) (env : Env) (st : State).

Lemma get_verifier_dir : dir (get_verifier env st).2 = dir st.
Proof. unfold get_verifier. by destruct (verifier st). Qed.

Lemma get_verifier_cache : verifier (get_verifier env st).2 = (get_verifier env st).1.
Proof. unfold get_verifier. by destruct (verifier st) eqn:Hv. Qed.

Lemma get_verifier_loaded (v : Verifier) :
  verifier st = Some v -> get_verifier env st = (Some v, st).
Proof. unfold get_verifier. by intros ->. Qed.

(** The state after a request that carries keystrokes. *)
Lemma api_verify_state_carries (request : exn + json) (ks : json) (n : Z) :
  carries request ks n ->
  (api_verify cfg env st request).2 =
    if n <? MIN_KEYSTROKES cfg then st
    else
      match extract_comprehensive_features env ks with
      | inl _ => (save_keystroke_data cfg env st ks).2
      | inr _ => (get_verifier env (save_keystroke_data cfg env st ks).2).2
      end.
Proof.
  intros (m & -> & Hks & Hlen). unfold api_verify.
  assert (m <> ∅) as Hne by (intros ->; by rewrite lookup_empty in Hks).
  cbn [truthy py_in py_getitem]. rewrite Hks, Hlen.
  rewrite bool_decide_eq_false_2 by done.
  rewrite bool_decide_eq_true_2 by done. cbn [negb].
  destruct (n <? MIN_KEYSTROKES cfg); [done |].
  destruct (save_keystroke_data cfg env st ks) as [saved st1].
  destruct (extract_comprehensive_features env ks); [done |].
  cbn [snd]. by destruct (get_verifier env st1) as [[v |] st2].
Qed.

(** A request that carries no keystrokes changes nothing. *)
Lemma api_verify_state_not_carries (request : exn + json) :
  (forall ks n, ~ carries request ks n) ->
  (api_verify cfg env st request).2 = st.
Proof.
  intros Hno. unfold api_verify.
  destruct request as [e | data]; [done |].
  destruct (negb (truthy data)); [done |].
  destruct (py_in "keystrokes" data) as [e | [|]]; [done | | done].
  destruct (py_getitem "keystrokes" data) as [e | ks] eqn:Hget; [done |].
  destruct (py_len ks) as [e | n] eqn:Hlen; [done |].
  destruct data as [| b | z | q | s | l | m]; try discriminate.
  cbn in Hget. destruct (m !! "keystrokes") as [ks' |] eqn:Hks; [| discriminate].
  injection Hget as ->. destruct (Hno ks n). by exists m.
Qed.

End HandlerState.

Section LoadedVerifier.

Lemma api_verify_loaded_not_503 cfg env st v request :
  verifier st = Some v -> status_code (api_verify cfg env st request).1 <> 503.
Proof.
  intros Hv. rewrite api_verify_503.
  intros (ks & n & features & _ & _ & _ & Hnone).
  rewrite (get_verifier_loaded env st v Hv) in Hnone. discriminate.
Qed.

Lemma api_analyze_loaded_not_503 env st v files :
  verifier st = Some v -> status_code (api_analyze env st files).1 <> 503.
Proof.
  intros Hv. unfold api_analyze.
  destruct (files !! "file") as [file |]; [| discriminate].
  destruct (String.eqb _ _); [discriminate |].
  destruct (negb _); [discriminate |].
  pose proof (file_save_verifier env st file
                ("temp_upload_" +:+ now_timestamp env +:+ ".csv")
                (Py.path_join "data"
                   ("temp_upload_" +:+ now_timestamp env +:+ ".csv"))) as Hsame.
  destruct (file_save env st file _ _) as [[e st0] | st0]; [discriminate |].
  rewrite (get_verifier_loaded env st0 v) by congruence.
  destruct (verify_keystroke_file v _ _); [discriminate |].
  destruct (truthy _); discriminate.
Qed.

Lemma api_analyze_keeps_verifier env st v files :
  verifier st = Some v -> verifier (api_analyze env st files).2 = Some v.
Proof.
  intros Hv. unfold api_analyze.
  destruct (files !! "file") as [file |]; [| exact Hv].
  destruct (String.eqb _ _); [exact Hv |].
  destruct (negb _); [exact Hv |].
  pose proof (file_save_verifier env st file
                ("temp_upload_" +:+ now_timestamp env +:+ ".csv")
                (Py.path_join "data"
                   ("temp_upload_" +:+ now_timestamp env +:+ ".csv"))) as Hsame.
  destruct (file_save env st file _ _) as [[e st0] | st0];
    [cbn [snd]; congruence |].
  rewrite (get_verifier_loaded env st0 v) by congruence.
  destruct (verify_keystroke_file v _ _); [cbn [snd]; congruence |].
  destruct (truthy _); cbn [snd]; rewrite upload_removed_verifier; congruence.
Qed.

Lemma api_verify_200_loaded cfg env st request :
  status_code (api_verify cfg env st request).1 = 200 ->
  is_Some (verifier (api_verify cfg env st request).2).
Proof.
  intros (ks & n & features & Hc & Hmin & Hex & Hv)%api_verify_200.
  rewrite (api_verify_state_carries _ _ _ _ _ _ Hc), Hex.
  rewrite (proj2 (Z.ltb_ge _ _)) by done.
  by rewrite get_verifier_cache, get_verifier_after_save.
Qed.

Lemma api_analyze_200_loaded env st files :
  status_code (api_analyze env st files).1 = 200 ->
  is_Some (verifier (api_analyze env st files).2).
Proof.
  unfold api_analyze.
  destruct (files !! "file") as [file |]; [| discriminate].
  destruct (String.eqb _ _); [discriminate |].
  destruct (negb _); [discriminate |].
  destruct (file_save env st file _ _) as [[e st0] | st0]; [discriminate |].
  pose proof (get_verifier_cache env st0) as Hcache.
  destruct (get_verifier env st0) as [[v |] st1]; [| discriminate].
  cbn [fst snd] in Hcache.
  destruct (verify_keystroke_file v _ _); [discriminate |].
  destruct (truthy _); [| discriminate].
  intros _. cbn [snd]. by rewrite upload_removed_verifier, Hcache.
Qed.

(** The sample of a request that passed the length check is in the directory
    afterwards when it could be written. *)
Lemma api_verify_sample_written cfg env st request ks n :
  carries request ks n ->
  MIN_KEYSTROKES cfg <= n ->
  to_csv env ks
    (Py.path_join (DATA_DIR cfg)
       (sample_filename (get_next_sample_number (dir st)).1)) = true ->
  sample_filename (get_next_sample_number (dir st)).1
    ∈ default [] (dir (api_verify cfg env st request).2).
Proof.
  intros Hc Hmin Hcsv.
  rewrite (api_verify_state_carries _ _ _ _ _ _ Hc).
  rewrite (proj2 (Z.ltb_ge _ _)) by done.
  assert ((save_keystroke_data cfg env st ks).1
          = Some (Py.path_join (DATA_DIR cfg)
                    (sample_filename (get_next_sample_number (dir st)).1),
                  (get_next_sample_number (dir st)).1)) as Hsave.
  { unfold save_keystroke_data.
    destruct (get_next_sample_number (dir st)) as [k d]. cbn [fst] in *.
    by rewrite Hcsv. }
  apply save_keystroke_data_success in Hsave as (_ & _ & Hdir).
  destruct (extract_comprehensive_features env ks);
    rewrite ?get_verifier_dir, Hdir; cbn [default from_option id];
    apply elem_of_app; right; by apply list_elem_of_singleton.
Qed.

End LoadedVerifier.

(** X7. The verifier is loaded lazily and once.  When [get_verifier] returns a
    verifier it is kept, and every later call returns that same verifier
    without loading again, whatever could be loaded then; when loading fails
    nothing is kept, the state is as before, and the next call tries again. *)
Theorem get_verifier_lazy (env : Env) (st : State) :
  (forall v, (get_verifier env st).1 = Some v ->
     forall env', get_verifier env' (get_verifier env st).2
                  = (Some v, (get_verifier env st).2))
  /\ ((get_verifier env st).1 = None ->
        (get_verifier env st).2 = st
        /\ forall env', (get_verifier env' (get_verifier env st).2).1
                        = load_verifier env')
  /\ dir (get_verifier env st).2 = dir st.
Proof.
  split_and!.
  - intros v Hv env'. apply get_verifier_loaded.
    by rewrite get_verifier_cache.
  - unfold get_verifier. destruct st as [d [v |]]; cbn [verifier dir fst snd];
      [discriminate |].
    intros Hload. rewrite Hload. by split.
  - apply get_verifier_dir.
Qed.

(** X8. A request answered with the client error 400 has no effect: nothing
    is written to the data directory and the verifier is not loaded. *)
Theorem api_verify_refused_no_effect
    (cfg : Config) (env : Env) (st : State) (request : exn + json) :
  status_code (api_verify cfg env st request).1 = 400 ->
  (api_verify cfg env st request).2 = st.
Proof.
  intros H400.
  destruct (carries_or_not request) as [(ks & n & Hc) | Hno];
    [| by apply api_verify_state_not_carries].
  rewrite (api_verify_state_carries _ _ _ _ _ _ Hc).
  apply api_verify_400, (refused_carries cfg _ _ _ Hc) in H400.
  by rewrite (proj2 (Z.ltb_lt _ _)).
Qed.

Lemma api_verify_refused_no_effect_witness :
  (api_verify demo_cfg demo_env demo_state (request_of one_event)).2 = demo_state.
Proof.
  apply (api_verify_refused_no_effect demo_cfg demo_env demo_state
           (request_of one_event)).
  reflexivity.
Defined.

(** X9. The sample is written before anything is verified: once a request has
    passed the length check and the file could be written, the new sample is in
    the data directory afterwards whatever the answer is, also when feature
    extraction raises (500) or no verifier is available (503). *)
Theorem api_verify_saves_before_verifying
    (cfg : Config) (env : Env) (st : State) (request : exn + json)
    (ks : json) (n : Z) :
  carries request ks n ->
  MIN_KEYSTROKES cfg <= n ->
  to_csv env ks
    (Py.path_join (DATA_DIR cfg)
       (sample_filename (get_next_sample_number (dir st)).1)) = true ->
  sample_filename (get_next_sample_number (dir st)).1
    ∈ default [] (dir (api_verify cfg env st request).2)
  /\ (sample_filename (get_next_sample_number (dir st)).1 ∉ default [] (dir st)).
Proof.
  intros Hc Hmin Hcsv. split.
  - by apply (api_verify_sample_written cfg env st request ks n).
  - apply get_next_sample_number_fresh.
Qed.

Lemma api_verify_saves_before_verifying_witness :
  status_code
    (api_verify demo_cfg offline_env demo_state (request_of three_events)).1 = 503
  /\ "sample3.csv"
       ∈ default []
           (dir (api_verify demo_cfg offline_env demo_state
                   (request_of three_events)).2).
Proof.
  split; [reflexivity |].
  apply (api_verify_saves_before_verifying demo_cfg offline_env demo_state
           (request_of three_events) (JArr three_events) 3).
  - exact (carries_request_of three_events).
  - reflexivity.
  - reflexivity.
Defined.

(** ** [api_analyze], [api_status] and [api_statistics] *)

(** X10. The answers of [api_analyze].  It is 400 exactly when the upload is
    missing, has an empty file name or a name that does not end in ".csv",
    whatever the environment and the state, and then nothing is changed; it is
    a success exactly when the upload is well named, is saved (the directory
    it is saved into exists and [file.save] does not raise), a verifier is
    there and returns a result that counts as true, and then the answer
    carries that result unchanged. *)
Theorem api_analyze_answers
    (env : Env) (st : State) (files : gmap string Upload) :
  (status_code (api_analyze env st files).1 = 400 <->
     files !! "file" = None
     \/ exists file, files !! "file" = Some file
          /\ (upload_filename file = ""
              \/ Py.endswith ".csv" (upload_filename file) = false))
  /\ (status_code (api_analyze env st files).1 = 200 <->
        exists file v result,
          files !! "file" = Some file
          /\ upload_filename file <> ""
          /\ Py.endswith ".csv" (upload_filename file) = true
          /\ (uploads_in_data_dir env = true -> is_Some (dir st))
          /\ save_upload env file
               (Py.path_join "data" ("temp_upload_" +:+ now_timestamp env +:+ ".csv"))
             = None
          /\ (get_verifier env st).1 = Some v
          /\ verify_keystroke_file v
               (Py.path_join "data" ("temp_upload_" +:+ now_timestamp env +:+ ".csv"))
               (upload_content file) = inr result
          /\ truthy result = true
          /\ body (api_analyze env st files).1
             = dict [("status", JStr "success"); ("result", result)])
  /\ (status_code (api_analyze env st files).1 = 400 ->
      (api_analyze env st files).2 = st).
Proof.
  split_and!; [| apply api_analyze_200 | apply api_analyze_refused_state].
  destruct (files !! "file") as [file |] eqn:Hfile; last first.
  { unfold api_analyze. rewrite Hfile. split; [by left | reflexivity]. }
  destruct (String.eqb (upload_filename file) "") eqn:Hname.
  { unfold api_analyze. rewrite Hfile, Hname. apply String.eqb_eq in Hname.
    split; [| reflexivity]. intros _. right. exists file. by split; [| left]. }
  apply String.eqb_neq in Hname.
  destruct (Py.endswith ".csv" (upload_filename file)) eqn:Hcsv; last first.
  { unfold api_analyze.
    rewrite Hfile, Hcsv, (proj2 (String.eqb_neq _ _) Hname). cbn [negb].
    split; [| reflexivity]. intros _. right. exists file. by split; [| right]. }
  split.
  - intros H400.
    by destruct (proj1 (api_analyze_well_named env st files file Hfile Hname Hcsv)).
  - intros [[=] | (file0 & [= <-] & [? | ?])]; congruence.
Qed.

(** X23. The temporary file of [api_analyze].  When the upload is saved into
    the data directory, every other name of the directory stays as it was and
    the next sample number does not move (the temporary name is no sample
    name); the temporary file itself is still there afterwards exactly when
    no verifier is available (the 503 answer) or the verifier raised: it is
    removed only after [verify_keystroke_file] has returned. *)
Theorem api_analyze_temporary_file
    (env : Env) (st : State) (files : gmap string Upload) (file : Upload)
    (l : list string) :
  files !! "file" = Some file ->
  upload_filename file <> "" ->
  Py.endswith ".csv" (upload_filename file) = true ->
  uploads_in_data_dir env = true ->
  dir st = Some l ->
  save_upload env file
    (Py.path_join "data" ("temp_upload_" +:+ now_timestamp env +:+ ".csv"))
  = None ->
  (forall f, f <> "temp_upload_" +:+ now_timestamp env +:+ ".csv" ->
     f ∈ default [] (dir (api_analyze env st files).2) <-> f ∈ l)
  /\ ("temp_upload_" +:+ now_timestamp env +:+ ".csv"
        ∈ default [] (dir (api_analyze env st files).2) <->
      (get_verifier env st).1 = None
      \/ exists v e,
           (get_verifier env st).1 = Some v
           /\ verify_keystroke_file v
                (Py.path_join "data"
                   ("temp_upload_" +:+ now_timestamp env +:+ ".csv"))
                (upload_content file) = inl e)
  /\ (get_next_sample_number (dir (api_analyze env st files).2)).1
     = (get_next_sample_number (dir st)).1.
Proof.
  intros Hfile Hname Hcsv Hin Hdir Hsave.
  pose proof (api_analyze_run_dir env st files file l
                Hfile Hname Hcsv Hin Hdir Hsave) as Hafter.
  set (temp := "temp_upload_" +:+ now_timestamp env +:+ ".csv") in *.
  assert (forall f, f ∈ default [] (dir_write temp (Some l))
                    <-> f ∈ l \/ f = temp) as Hwrite.
  { intros f. unfold dir_write. cbn [default from_option id].
    destruct (bool_decide (temp ∈ l)) eqn:Hold; cbn [default from_option id].
    - apply bool_decide_eq_true in Hold. split; [by left |].
      by intros [? | ->].
    - by rewrite elem_of_app, list_elem_of_singleton. }
  assert (forall f, f ∈ default [] (dir_remove temp (dir_write temp (Some l)))
                    <-> f ∈ l /\ f <> temp) as Hremove.
  { intros f. unfold dir_remove, dir_write. cbn [default from_option id].
    destruct (bool_decide (temp ∈ l));
      cbn [fmap option_fmap option_map default from_option id];
      rewrite list_elem_of_filter;
      [| rewrite elem_of_app, list_elem_of_singleton]; tauto. }
  assert (forall f, f <> temp ->
            f ∈ default [] (dir (api_analyze env st files).2) <-> f ∈ l)
    as Hothers.
  { intros f Hf. rewrite Hafter.
    destruct (get_verifier env st).1 as [v |].
    - destruct (verify_keystroke_file v _ (upload_content file)).
      + rewrite Hwrite. tauto.
      + rewrite Hremove. tauto.
    - rewrite Hwrite. tauto. }
  split_and!.
  - exact Hothers.
  - rewrite Hafter.
    destruct (get_verifier env st).1 as [v |].
    + destruct (verify_keystroke_file v _ (upload_content file))
        as [e | result] eqn:Hverify.
      * rewrite Hwrite. split; [| by right]. intros _. right. by exists v, e.
      * rewrite Hremove. split; [by intros [_ ?] |].
        intros [[=] | (v' & e & [= <-] & Hraised)]. congruence.
    + rewrite Hwrite. split; [by left | by right].
  - assert (exists l', dir (api_analyze env st files).2 = Some l') as [l' Hl'].
    { rewrite Hafter. unfold dir_remove, dir_write.
      cbn [default from_option id].
      destruct (get_verifier env st).1 as [v |];
        [destruct (verify_keystroke_file v _ (upload_content file)) |];
        destruct (bool_decide _); eexists; reflexivity. }
    rewrite Hl' in Hothers |- *. rewrite Hdir.
    apply get_next_sample_number_ext, counted_names.
    intros f Hs. cbn [default from_option id] in Hothers. apply Hothers.
    intros ->. unfold temp, is_sample_file in Hs. by vm_compute in Hs.
Qed.

Lemma api_analyze_temporary_file_witness :
  "temp_upload_1714557600.0.csv"
    ∈ default [] (dir (api_analyze offline_env demo_state
                         (demo_upload three_events)).2).
Proof.
  destruct (api_analyze_temporary_file offline_env demo_state
              (demo_upload three_events)
              {| upload_filename := "session.csv";
                 upload_content := JArr three_events |}
              ["sample1.csv"; "sample2.csv"])
    as (_ & Hleft & _); try reflexivity; [discriminate |].
  apply Hleft. left. reflexivity.
Defined.

(** X11. Once a verifier is loaded no request is answered 503 any more, and
    no handler unloads it: with a verifier in the state, [api_verify],
    [api_analyze] and [api_status] leave that verifier in the state, the first
    two never answer 503 and the third reports the model as loaded, whatever
    the environment can or cannot load. *)
Theorem verifier_stays_loaded
    (cfg : Config) (env : Env) (st : State) (v : Verifier)
    (request : exn + json) (files : gmap string Upload) :
  verifier st = Some v ->
  status_code (api_verify cfg env st request).1 <> 503
  /\ verifier (api_verify cfg env st request).2 = Some v
  /\ status_code (api_analyze env st files).1 <> 503
  /\ verifier (api_analyze env st files).2 = Some v
  /\ field "model_loaded" (body (api_status env st).1) = Some (JBool true)
  /\ verifier (api_status env st).2 = Some v.
Proof.
  intros Hv. pose proof (get_verifier_loaded env st v Hv) as Hget.
  split_and!.
  - by apply (api_verify_loaded_not_503 cfg env st v).
  - destruct (carries_or_not request) as [(ks & n & Hc) | Hno];
      [| by rewrite api_verify_state_not_carries].
    rewrite (api_verify_state_carries _ _ _ _ _ _ Hc).
    destruct (n <? MIN_KEYSTROKES cfg); [done |].
    pose proof (save_keystroke_data_verifier cfg env st ks) as Hsaved.
    rewrite Hv in Hsaved.
    destruct (extract_comprehensive_features env ks); [done |].
    by rewrite (get_verifier_loaded env _ v Hsaved).
  - by apply (api_analyze_loaded_not_503 env st v).
  - by apply api_analyze_keeps_verifier.
  - unfold api_status. by rewrite Hget.
  - unfold api_status. by rewrite Hget.
Qed.

Lemma verifier_stays_loaded_witness :
  status_code
    (api_verify demo_cfg offline_env
       {| dir := None; verifier := Some rejecting_verifier |}
       (request_of three_events)).1 <> 503.
Proof.
  apply (verifier_stays_loaded demo_cfg offline_env
           {| dir := None; verifier := Some rejecting_verifier |}
           rejecting_verifier (request_of three_events) ∅).
  reflexivity.
Defined.

(** X12. A successful [api_verify] or [api_analyze] leaves a verifier loaded,
    so that no later request to either is answered 503, even in an environment
    where the verifier can no longer be loaded. *)
Theorem success_rules_out_unavailable
    (cfg : Config) (env : Env) (st : State) (request : exn + json)
    (files : gmap string Upload) :
  (status_code (api_verify cfg env st request).1 = 200 ->
     forall cfg' env' request' files',
       status_code
         (api_verify cfg' env' (api_verify cfg env st request).2 request').1 <> 503
       /\ status_code
            (api_analyze env' (api_verify cfg env st request).2 files').1 <> 503)
  /\ (status_code (api_analyze env st files).1 = 200 ->
        forall cfg' env' request' files',
          status_code
            (api_verify cfg' env' (api_analyze env st files).2 request').1 <> 503
          /\ status_code
               (api_analyze env' (api_analyze env st files).2 files').1 <> 503).
Proof.
  split.
  - intros [v Hv]%api_verify_200_loaded cfg' env' request' files'. split.
    + by apply (api_verify_loaded_not_503 cfg' env' _ v).
    + by apply (api_analyze_loaded_not_503 env' _ v).
  - intros [v Hv]%api_analyze_200_loaded cfg' env' request' files'. split.
    + by apply (api_verify_loaded_not_503 cfg' env' _ v).
    + by apply (api_analyze_loaded_not_503 env' _ v).
Qed.

(** X13. [api_status] always answers 200 and never touches the data
    directory.  It reports the model as loaded exactly when a verifier is
    already in the state or can be loaded now; after such a report no request
    to [api_verify] is answered 503, and after the opposite report the state
    is as before. *)
Theorem api_status_reports (env : Env) (st : State) :
  status_code (api_status env st).1 = 200
  /\ dir (api_status env st).2 = dir st
  /\ (field "model_loaded" (body (api_status env st).1) = Some (JBool true) <->
        is_Some (verifier st) \/ is_Some (load_verifier env))
  /\ (field "model_loaded" (body (api_status env st).1) = Some (JBool true) ->
        forall cfg env' request,
          status_code (api_verify cfg env' (api_status env st).2 request).1 <> 503)
  /\ (field "model_loaded" (body (api_status env st).1) = Some (JBool false) ->
        (api_status env st).2 = st).
Proof.
  unfold api_status, get_verifier.
  destruct st as [d [v |]]; cbn [verifier dir fst snd].
  - split_and!; [done | done | | | done].
    + split; [intros _; left; by eexists | done].
    + intros _ cfg env' request.
      by apply (api_verify_loaded_not_503 cfg env' _ v).
  - destruct (load_verifier env) as [v |] eqn:Hload; cbn [fst snd].
    + split_and!; [done | done | | | done].
      * split; [intros _; right; by eexists | done].
      * intros _ cfg env' request.
        by apply (api_verify_loaded_not_503 cfg env' _ v).
    + split_and!; [done | done | | done | done].
      split; [done |]. by intros [[? [=]] | [? [=]]].
Qed.

(** X14. [api_statistics] fails exactly when the data directory is missing:
    unlike [get_next_sample_number] it lists the directory without creating it.
    Otherwise it answers 200, leaves the directory as it is, and the
    [next_sample_number] it reports is the number the next successful save
    gets; it is [1] whenever [data_files_count] is [0]. *)
Theorem api_statistics_reports (env : Env) (st : State) :
  (api_statistics env st = None <-> dir st = None)
  /\ forall r st',
       api_statistics env st = Some (r, st') ->
       status_code r = 200
       /\ dir st' = dir st
       /\ field "next_sample_number" (body r)
          = Some (JInt (get_next_sample_number (dir st)).1)
       /\ (field "data_files_count" (body r) = Some (JInt 0) ->
             field "next_sample_number" (body r) = Some (JInt 1))
       /\ (forall cfg env' ks path k,
             (save_keystroke_data cfg env' st' ks).1 = Some (path, k) ->
             field "next_sample_number" (body r) = Some (JInt k)).
Proof.
  unfold api_statistics.
  destruct (dir st) as [names |] eqn:Hdir; [| by split].
  pose proof (get_verifier_dir env st) as Hvdir.
  destruct (get_verifier env st) as [v st1]. cbn [snd] in Hvdir.
  rewrite Hvdir, Hdir.
  pose proof (get_next_sample_number_dir (Some names)) as Hnext.
  destruct (get_next_sample_number (Some names)) as [next d] eqn:Hget.
  cbn [fst snd default from_option id] in *. subst d.
  split; [done |].
  intros r st' [= <- <-]. cbn [dir body status_code].
  split_and!; [done | done | done | |].
  - intros Hcount.
    assert (filter (fun f => is_sample_file f = true) names = []) as Hnil.
    { apply nil_length_inv.
      change (field "data_files_count"
                (dict [("data_files_count",
                        JInt (Z.of_nat
                                (length (filter (fun f => is_sample_file f = true)
                                           names))));
                       ("model_status",
                        JStr (match v with
                              | Some _ => "loaded"
                              | None => "not_loaded"
                              end));
                       ("system_uptime", JStr (now_isoformat env));
                       ("next_sample_number", JInt next)]))
        with (Some (JInt (Z.of_nat
                            (length (filter (fun f => is_sample_file f = true)
                                       names))))) in Hcount.
      injection Hcount as Hcount. lia. }
    unfold get_next_sample_number in Hget.
    cbn [default from_option id] in Hget. rewrite Hnil in Hget.
    by injection Hget as <-.
  - intros cfg env' ks path k (-> & _)%save_keystroke_data_success.
    cbn [dir]. by rewrite Hget.
Qed.

(** X15. The file named in a successful answer is the file that was written:
    when [api_verify] succeeds with a ["saved_file"] name, a file of that name
    is in the data directory afterwards and was not there before, and
    ["filename"] and ["saved_as"] give the same name. *)
Theorem api_verify_saved_file_written
    (cfg : Config) (env : Env) (st : State) (request : exn + json)
    (name : string) :
  status_code (api_verify cfg env st request).1 = 200 ->
  field "saved_file" (body (api_verify cfg env st request).1) = Some (JStr name) ->
  name ∈ default [] (dir (api_verify cfg env st request).2)
  /\ (name ∉ default [] (dir st))
  /\ file_info_of (api_verify cfg env st request).1 ≫= field "filename"
     = Some (JStr name)
  /\ file_info_of (api_verify cfg env st request).1 ≫= field "saved_as"
     = Some (JStr name).
Proof.
  intros (ks & n & features & Hreach)%api_verify_200.
  rewrite (api_verify_success _ _ _ _ _ _ _ Hreach).
  destruct Hreach as (Hc & Hmin & Hex & _).
  rewrite (api_verify_state_carries _ _ _ _ _ _ Hc), Hex.
  rewrite (proj2 (Z.ltb_ge _ _)) by done. rewrite get_verifier_dir.
  destruct (save_keystroke_data cfg env st ks).1 as [[path k] |] eqn:Hsave;
    last first.
  { cbn. discriminate. }
  unfold verify_success, verify_result, sample_label.
  cbn [fmap option_fmap option_map snd].
  destruct (k =? 0) eqn:Hk.
  { cbn. discriminate. }
  intros Hname.
  change (Some (opt_str (Some (sample_filename k))) = Some (JStr name)) in Hname.
  injection Hname as <-.
  apply save_keystroke_data_success in Hsave as (-> & _ & Hdir).
  split_and!; [| apply get_next_sample_number_fresh | done | done].
  rewrite Hdir. cbn [default from_option id].
  apply elem_of_app. right. by apply list_elem_of_singleton.
Qed.

Lemma api_verify_saved_file_written_witness :
  "sample3.csv"
    ∈ default []
        (dir (api_verify demo_cfg demo_env demo_state (request_of three_events)).2).
Proof.
  apply (api_verify_saved_file_written demo_cfg demo_env demo_state
           (request_of three_events) "sample3.csv").
  - reflexivity.
  - reflexivity.
Defined.

(** X16. Sample number zero is written but not reported.  When the greatest
    number in the data directory is [-1], [get_next_sample_number] returns [0];
    a request that then succeeds writes [sample0.csv], yet its answer says
    ["saved_file"] null and ["filename"] "realtime_verification", as if nothing
    had been saved. *)
Theorem api_verify_sample_zero_unreported
    (cfg : Config) (env : Env) (st : State) (request : exn + json)
    (ks : json) (n : Z) (features : gmap string json) :
  (get_next_sample_number (dir st)).1 = 0 ->
  reaches_verification cfg env st request ks n features ->
  to_csv env ks (Py.path_join (DATA_DIR cfg) (sample_filename 0)) = true ->
  "sample0.csv" ∈ default [] (dir (api_verify cfg env st request).2)
  /\ field "saved_file" (body (api_verify cfg env st request).1) = Some JNull
  /\ file_info_of (api_verify cfg env st request).1 ≫= field "filename"
     = Some (JStr "realtime_verification").
Proof.
  intros Hzero Hreach Hcsv.
  pose proof Hreach as (Hc & Hmin & _).
  split.
  - change "sample0.csv" with (sample_filename 0). rewrite <- Hzero.
    apply (api_verify_sample_written cfg env st request ks n Hc Hmin).
    by rewrite Hzero.
  - rewrite (api_verify_success _ _ _ _ _ _ _ Hreach).
    assert ((save_keystroke_data cfg env st ks).1
            = Some (Py.path_join (DATA_DIR cfg) (sample_filename 0), 0)) as ->.
    { unfold save_keystroke_data.
      destruct (get_next_sample_number (dir st)) as [k d]. cbn [fst] in Hzero.
      subst k. by rewrite Hcsv. }
    by split.
Qed.

Lemma api_verify_sample_zero_unreported_witness :
  "sample0.csv"
    ∈ default []
        (dir (api_verify demo_cfg demo_env
                {| dir := Some ["sample-1.csv"]; verifier := None |}
                (request_of three_events)).2).
Proof.
  apply (api_verify_sample_zero_unreported demo_cfg demo_env
           {| dir := Some ["sample-1.csv"]; verifier := None |}
           (request_of three_events) (JArr three_events) 3 three_features).
  - reflexivity.
  - split_and!;
      [exact (carries_request_of three_events) | reflexivity | reflexivity
      | by eexists].
  - reflexivity.
Defined.

(** ** Accounts and sessions *)

Section Accounts.

Lemma find_one_None (email : option string) (users : list User) :
  find_one email users = None <-> email ∉ user_email <$> users.
Proof.
  unfold find_one. rewrite head_None. split.
  - intros Hnil (u & -> & Hu)%list_elem_of_fmap.
    assert (u ∈ filter (fun u0 => user_email u0 = user_email u) users) as Hin
      by (by apply list_elem_of_filter).
    rewrite Hnil in Hin. by apply elem_of_nil in Hin.
  - intros Hnot. apply elem_of_nil_inv. intros u [Hu Hin]%list_elem_of_filter.
    apply Hnot, list_elem_of_fmap. by exists u.
Qed.

Lemma find_one_Some (email : option string) (users : list User) (u : User) :
  find_one email users = Some u -> u ∈ users /\ user_email u = email.
Proof.
  unfold find_one. intros Hhead.
  assert (u ∈ filter (fun u0 => user_email u0 = email) users) as Hin.
  { destruct (filter _ users) as [| u0 l]; [discriminate |].
    injection Hhead as ->. by left. }
  apply list_elem_of_filter in Hin. tauto.
Qed.

(** The first match in a collection extended at the end. *)
Lemma find_one_app_new (email : option string) (users : list User) (u : User) :
  find_one email users = None -> user_email u = email ->
  find_one email (users ++ [u]) = Some u.
Proof.
  unfold find_one. intros Hnone%head_None Hu.
  rewrite filter_app, Hnone. cbn [app].
  rewrite filter_cons. by destruct (decide (user_email u = email)).
Qed.

(** What [register] does, case by case. *)
Lemma register_cases (env : AuthEnv) (users : list User) (method : string)
    (form : gmap string string) :
  ((register env users method form).1 <> Redirect "login"
   /\ (register env users method form).2 = users)
  \/ (method = "POST"
      /\ form !! "password" = form !! "confirm_password"
      /\ find_one (form !! "email") users = None
      /\ exists hashed,
           generate_password_hash env (form !! "password") = Some hashed
           /\ register env users method form
              = (Redirect "login",
                 (users ++ [ {| user_oid := new_object_id env;
                                user_name := form !! "name";
                                user_email := form !! "email";
                                user_password := hashed;
                                user_created_at := utcnow env |} ])%list)).
Proof.
  unfold register.
  destruct (String.eqb method "POST") eqn:Hmethod; [| by left].
  apply String.eqb_eq in Hmethod.
  destruct (bool_decide (form !! "password" = form !! "confirm_password"))
    eqn:Hsame; cbn [negb]; [| by left].
  apply bool_decide_eq_true_1 in Hsame.
  destruct (find_one (form !! "email") users) eqn:Hfind; [by left |].
  destruct (generate_password_hash env (form !! "password")) as [hashed |]
    eqn:Hhash; [| by left].
  right. split_and!; [done | done | done |]. by exists hashed.
Qed.

End Accounts.

(** X17. [register] keeps e-mail addresses unique: when no two users of the
    collection share an address, none do after any registration request. *)
Theorem register_keeps_emails_unique
    (env : AuthEnv) (users : list User) (method : string)
    (form : gmap string string) :
  NoDup (user_email <$> users) ->
  NoDup (user_email <$> (register env users method form).2).
Proof.
  intros Hnodup.
  destruct (register_cases env users method form)
    as [[_ ->] | (_ & _ & Hfind & hashed & _ & ->)]; [done |].
  cbn [snd]. rewrite fmap_app. cbn [fmap list_fmap user_email].
  apply NoDup_app. split_and!; [done | | apply NoDup_singleton].
  intros e He ->%list_elem_of_singleton.
  by apply find_one_None in Hfind.
Qed.

(** X18. [register] changes the collection only when it redirects to the
    login page, which it does exactly for a POST whose two passwords agree,
    whose address is not taken and whose password can be hashed.  It then adds
    one user at the end, with the submitted name and address and the hashed
    password as the stored one; the users already there are never modified. *)
Theorem register_effect
    (env : AuthEnv) (users : list User) (method : string)
    (form : gmap string string) :
  ((register env users method form).1 = Redirect "login" <->
     method = "POST"
     /\ form !! "password" = form !! "confirm_password"
     /\ (form !! "email" ∉ user_email <$> users)
     /\ is_Some (generate_password_hash env (form !! "password")))
  /\ ((register env users method form).1 <> Redirect "login" ->
        (register env users method form).2 = users)
  /\ ((register env users method form).1 = Redirect "login" ->
        exists u,
          (register env users method form).2 = (users ++ [u])%list
          /\ user_name u = form !! "name"
          /\ user_email u = form !! "email"
          /\ generate_password_hash env (form !! "password")
             = Some (user_password u)).
Proof.
  destruct (register_cases env users method form)
    as [[Hview Husers] | (Hmethod & Hsame & Hfind & hashed & Hhash & Heq)].
  - split_and!; [| done | done].
    split; [done |]. intros (-> & Hsame & Hfree%find_one_None & [hashed Hhash]).
    exfalso. apply Hview. unfold register.
    rewrite bool_decide_eq_true_2 by done. cbn [String.eqb Ascii.eqb Bool.eqb negb].
    by rewrite Hfree, Hhash.
  - rewrite Heq. cbn [fst snd]. split_and!.
    + split; [intros _ | done].
      split_and!; [done | done | by apply find_one_None | by eexists].
    + done.
    + intros _. eexists. by split_and!.
Qed.

(** X19. A registered user can log in.  After a registration that redirected
    to the login page, a login with the same address and password, checked by
    a [check_password_hash] that accepts what [generate_password_hash]
    produced, redirects to the index page and leaves a session in which
    [index] shows the page with the registered name; after [logout] the same
    [index] redirects to the login page. *)
Theorem register_then_login
    (env env' : AuthEnv) (users : list User) (form form' : gmap string string)
    (session : gmap string json) (password : string) :
  (register env users "POST" form).1 = Redirect "login" ->
  form !! "password" = Some password ->
  form' !! "email" = form !! "email" ->
  form' !! "password" = Some password ->
  (forall hashed,
      generate_password_hash env (Some password) = Some hashed ->
      check_password_hash env' hashed (Some password) = Some true) ->
  (login env' (register env users "POST" form).2 session "POST" form').1
  = Redirect "index"
  /\ index (login env' (register env users "POST" form).2 session "POST" form').2
     = Render "index.html" {[ "user_name" := opt_str (form !! "name") ]}
  /\ index
       (logout
          (login env' (register env users "POST" form).2 session "POST" form').2).2
     = Redirect "login".
Proof.
  intros Hview Hpw Hemail Hpw' Hcheck.
  destruct (register_cases env users "POST" form)
    as [[Hno _] | (_ & _ & Hfind & hashed & Hhash & Heq)]; [done |].
  rewrite Heq. cbn [snd]. unfold login.
  cbn [String.eqb Ascii.eqb Bool.eqb]. rewrite Hemail, Hpw'.
  rewrite (find_one_app_new (form !! "email") users
             {| user_oid := new_object_id env;
                user_name := form !! "name";
                user_email := form !! "email";
                user_password := hashed;
                user_created_at := utcnow env |} Hfind eq_refl).
  cbn [user_password].
  rewrite Hpw in Hhash. rewrite (Hcheck hashed Hhash).
  cbn [fst snd user_name user_oid].
  split_and!; [done | | done].
  unfold index. rewrite lookup_insert_ne by done.
  rewrite !lookup_insert_eq. done.
Qed.

Lemma register_keeps_emails_unique_witness :
  NoDup (user_email <$> (register demo_auth_env [alice] "POST" bob_form).2).
Proof.
  apply (register_keeps_emails_unique demo_auth_env [alice] "POST" bob_form).
  apply NoDup_singleton.
Defined.

Lemma register_then_login_witness :
  (login demo_auth_env (register demo_auth_env [alice] "POST" bob_form).2 ∅
     "POST" bob_login_form).1
  = Redirect "index".
Proof.
  apply (register_then_login demo_auth_env demo_auth_env [alice] bob_form
           bob_login_form ∅ "builder").
  - reflexivity.
  - reflexivity.
  - reflexivity.
  - reflexivity.
  - intros hashed [= <-]. reflexivity.
Defined.

(** X20. [login] opens a session only for a known address whose stored
    password passes [check_password_hash].  For an address that is not in the
    collection it shows the error page without consulting the password
    functions; whenever it does not redirect to the index page the session is
    as before; and when it does, the session is that of a user of the
    collection with the submitted address, whose identifier and name [index]
    then finds. *)
Theorem login_effect
    (env : AuthEnv) (users : list User) (session : gmap string json)
    (method : string) (form : gmap string string) :
  ((login env users session method form).1 = Redirect "index" <->
     method = "POST"
     /\ exists user,
          find_one (form !! "email") users = Some user
          /\ check_password_hash env (user_password user) (form !! "password")
             = Some true)
  /\ ((login env users session method form).1 <> Redirect "index" ->
        (login env users session method form).2 = session)
  /\ ((form !! "email" ∉ user_email <$> users) ->
        login env users session "POST" form
        = (Render "login.html" {[ "error" := JStr "Invalid email or password" ]},
           session))
  /\ ((login env users session method form).1 = Redirect "index" ->
        exists user,
          user ∈ users
          /\ user_email user = form !! "email"
          /\ (login env users session method form).2 !! "user_id"
             = Some (JStr (user_oid user))
          /\ index (login env users session method form).2
             = Render "index.html" {[ "user_name" := opt_str (user_name user) ]}).
Proof.
  split_and!.
  - unfold login. destruct (String.eqb method "POST") eqn:Hmethod; last first.
    { apply String.eqb_neq in Hmethod. split; [done | by intros [? _]]. }
    apply String.eqb_eq in Hmethod.
    destruct (find_one (form !! "email") users) as [user |] eqn:Hfind; last first.
    { split; [done | by intros (_ & ? & [=] & _)]. }
    destruct (check_password_hash env (user_password user) (form !! "password"))
      as [[|] |] eqn:Hcheck.
    + split; [| done]. intros _. split; [done |]. by exists user.
    + split; [done |]. intros (_ & ? & [= <-] & ?). congruence.
    + split; [done |]. intros (_ & ? & [= <-] & ?). congruence.
  - unfold login. destruct (String.eqb method "POST"); [| done].
    destruct (find_one (form !! "email") users) as [user |]; [| done].
    by destruct (check_password_hash env _ _) as [[|] |].
  - intros Hfree%find_one_None. unfold login.
    cbn [String.eqb Ascii.eqb Bool.eqb]. by rewrite Hfree.
  - unfold login. destruct (String.eqb method "POST"); [| done].
    destruct (find_one (form !! "email") users) as [user |] eqn:Hfind; [| done].
    destruct (check_password_hash env _ _) as [[|] |]; [| done | done].
    intros _. apply find_one_Some in Hfind as [Hin Hemail].
    exists user. cbn [fst snd]. split_and!; [done | done | |].
    + rewrite lookup_insert_ne by done. by rewrite lookup_insert_eq.
    + unfold index. rewrite lookup_insert_ne by done.
      by rewrite !lookup_insert_eq.
Qed.

(** ** The answers of [api_verify] as documents *)

(** X21. Every answer of [api_verify] has status 200, 400, 500 or 503.  Its
    ["status"] field is "success" exactly when the code is 200; every other
    answer says "error", carries a message and has no result. *)
Theorem api_verify_answer_kinds
    (cfg : Config) (env : Env) (st : State) (request : exn + json) :
  (status_code (api_verify cfg env st request).1 = 200
   /\ field "status" (body (api_verify cfg env st request).1)
      = Some (JStr "success")
   /\ is_Some (result_of (api_verify cfg env st request).1))
  \/ ((status_code (api_verify cfg env st request).1 = 400
       \/ status_code (api_verify cfg env st request).1 = 500
       \/ status_code (api_verify cfg env st request).1 = 503)
      /\ field "status" (body (api_verify cfg env st request).1)
         = Some (JStr "error")
      /\ (exists msg, field "message" (body (api_verify cfg env st request).1)
                      = Some (JStr msg))
      /\ result_of (api_verify cfg env st request).1 = None).
Proof.
  assert (forall msg code,
            code = 400 \/ code = 500 \/ code = 503 ->
            (status_code (error_response msg code) = 400
             \/ status_code (error_response msg code) = 500
             \/ status_code (error_response msg code) = 503)
            /\ field "status" (body (error_response msg code)) = Some (JStr "error")
            /\ (exists msg', field "message" (body (error_response msg code))
                             = Some (JStr msg'))
            /\ result_of (error_response msg code) = None) as Herror.
  { intros msg code Hcode. split_and!; [done | done | by exists msg | done]. }
  unfold api_verify, verify_failed.
  destruct request as [e | data]; [right; apply Herror; tauto |].
  destruct (negb (truthy data)); [right; apply Herror; tauto |].
  destruct (py_in "keystrokes" data) as [e | [|]];
    [right; apply Herror; tauto | | right; apply Herror; tauto].
  destruct (py_getitem "keystrokes" data) as [e | ks];
    [right; apply Herror; tauto |].
  destruct (py_len ks) as [e | n]; [right; apply Herror; tauto |].
  destruct (n <? MIN_KEYSTROKES cfg); [right; apply Herror; tauto |].
  destruct (save_keystroke_data cfg env st ks) as [saved st1].
  destruct (extract_comprehensive_features env ks) as [e | features];
    [right; apply Herror; tauto |].
  destruct (get_verifier env st1) as [[v |] st2];
    [| right; apply Herror; tauto].
  left. split_and!; [done | done | by eexists].
Qed.

(** X22. A JSON body that is not a dictionary is never accepted and changes
    nothing.  A true number or boolean, a text that contains "keystrokes" and a
    list with the element "keystrokes" make the handler raise a [TypeError],
    answered 500 with the error's text after "Verification failed: "; any
    other such body is answered 400 "No keystroke data provided". *)
Theorem api_verify_not_a_dictionary
    (cfg : Config) (env : Env) (st : State) (data : json) :
  (forall m, data <> JObj m) ->
  (api_verify cfg env st (inr data)).2 = st
  /\ ((api_verify cfg env st (inr data)).1
      = error_response "No keystroke data provided" 400
      \/ exists e,
           (api_verify cfg env st (inr data)).1
           = error_response ("Verification failed: " +:+ type_error_str env e) 500
           /\ (e = NotIterable data \/ e = BadIndex data))
  /\ ((api_verify cfg env st (inr data)).1
      = error_response "No keystroke data provided" 400 <->
        truthy data = false
        \/ (exists s, data = JStr s /\ Py.contains "keystrokes" s = false)
        \/ (exists l, data = JArr l /\ JStr "keystrokes" ∉ l)).
Proof.
  intros Hdata.
  assert (forall l, existsb (is_str "keystrokes") l = true <-> JStr "keystrokes" ∈ l)
    as Hexists.
  { intros l. rewrite existsb_exists. split.
    - intros (j & Hin%list_elem_of_In & Hj). destruct j; try discriminate.
      unfold is_str in Hj. apply String.eqb_eq in Hj. by subst.
    - intros Hin. exists (JStr "keystrokes"). split; [by apply list_elem_of_In |].
      unfold is_str. by apply String.eqb_eq. }
  assert (forall msg e, error_response ("Verification failed: " +:+ msg) 500
                        <> error_response e 400) as Hne400.
  { intros msg e [=]. }
  unfold api_verify, verify_failed, str_exn.
  destruct data as [| b | z | q | s | l | m]; [| | | | | | by destruct (Hdata m)];
    cbn [py_in py_getitem].
  - cbn. split_and!; [done | by left |]. split; [by left | done].
  - destruct (negb (truthy (JBool b))) eqn:Ht.
    + split_and!; [done | by left |]. split; [intros _; left | done].
      by destruct b.
    + split_and!; [done | right; eexists; by split; [| left] |].
      split; [intros H; by destruct (Hne400 _ _ H) |].
      intros [Hf | [(s & [=] & _) | (l & [=] & _)]]. by rewrite Hf in Ht.
  - destruct (negb (truthy (JInt z))) eqn:Ht.
    + split_and!; [done | by left |]. split; [intros _; left | done].
      by apply negb_true_iff.
    + split_and!; [done | right; eexists; by split; [| left] |].
      split; [intros H; by destruct (Hne400 _ _ H) |].
      intros [Hf | [(s & [=] & _) | (l & [=] & _)]]. by rewrite Hf in Ht.
  - destruct (negb (truthy (JFloat q))) eqn:Ht.
    + split_and!; [done | by left |]. split; [intros _; left | done].
      by apply negb_true_iff.
    + split_and!; [done | right; eexists; by split; [| left] |].
      split; [intros H; by destruct (Hne400 _ _ H) |].
      intros [Hf | [(s' & [=] & _) | (l & [=] & _)]]. by rewrite Hf in Ht.
  - destruct (negb (truthy (JStr s))) eqn:Ht.
    + split_and!; [done | by left |]. split; [intros _; left | done].
      by apply negb_true_iff.
    + destruct (Py.contains "keystrokes" s) eqn:Hin.
      * split_and!; [done | right; eexists; by split; [| right] |].
        split; [intros H; by destruct (Hne400 _ _ H) |].
        intros [Hf | [(s' & [= <-] & Hs) | (l & [=] & _)]];
          [by rewrite Hf in Ht | congruence].
      * split_and!; [done | by left |].
        split; [| done]. intros _. right. left. by exists s.
  - destruct (negb (truthy (JArr l))) eqn:Ht.
    + split_and!; [done | by left |]. split; [intros _; left | done].
      by apply negb_true_iff.
    + destruct (existsb (is_str "keystrokes") l) eqn:Hin.
      * split_and!; [done | right; eexists; by split; [| right] |].
        split; [intros H; by destruct (Hne400 _ _ H) |].
        intros [Hf | [(s' & [=] & _) | (l' & [= <-] & Hl)]];
          [by rewrite Hf in Ht |].
        by apply Hexists in Hin.
      * split_and!; [done | by left |].
        split; [| done]. intros _. do 2 right. exists l. split; [done |].
        intros Hl%Hexists. congruence.
Qed.

Lemma api_verify_not_a_dictionary_witness :
  (api_verify demo_cfg demo_env demo_state (inr (JStr "my keystrokes"))).1
  = error_response "Verification failed: TypeError" 500.
Proof.
  destruct (api_verify_not_a_dictionary demo_cfg demo_env demo_state
              (JStr "my keystrokes")) as (_ & [H400 | (e & H500 & _)] & H400iff).
  - discriminate.
  - apply H400iff in H400 as [Hf | [(s & [= <-] & Hs) | (l & [=] & _)]];
      discriminate.
  - exact H500.
Defined.
